(** * Offboarding intake service: validation, persistence and lifecycle

    A shallow embedding of the two Express servers of the repository
    (the server listening on port 3100, with health check and start-up
    retries, and [Backend/server.js], listening on port 3021), together
    with the properties of their request handlers and start-up sequence.

    Conventions of the embedding.

    - A JavaScript string is the list of its UTF-16 code units, so that
      [length] is the [.length] of the source and the regular
      expressions see exactly the units the engine sees.
    - The text fields of a request body range over [undefined] (the key
      is absent), [null] and strings; the numeric fields over
      [undefined], [null] and numbers.  A number is NaN, an infinity or
      a finite rational (every finite double is one, the comparisons of
      the source are exact on them, and the bounds of the source are
      doubles).  Bodies that put other JSON values in a field (a number
      or an array where a text is expected, a string where a number is
      expected) are outside the embedding, and so are the conversions
      between strings and numbers, which round.
    - The PostgreSQL table is a list of rows with a sequence for [id];
      the statement [insertQuery] enforces what [createTableQuery]
      declares.  Time is a parameter: the instant a handler or the
      database reads from its clock. *)

From Stdlib Require Import List String Ascii Bool Arith ZArith NArith Lia.
From Stdlib Require Import QArith Qabs Sorting.Sorted Sorting.Permutation.
From Equations Require Import Equations.
Import ListNotations.
Close Scope Q_scope.

Set Implicit Arguments.
Set Warnings "-register-all".

(** ** JavaScript strings *)

Definition char16 := N.
Definition jsstring := list char16.

Definition code (a : ascii) : char16 := N_of_ascii a.

(** The string literal of the source with the given ASCII text. *)
Definition u (s : string) : jsstring := map code (list_ascii_of_string s).

Definition char16_eqb (a b : char16) : bool := N.eqb a b.

Fixpoint jsstring_eqb (a b : jsstring) : bool :=
  match a, b with
  | [], [] => true
  | x :: a', y :: b' => char16_eqb x y && jsstring_eqb a' b'
  | _, _ => false
  end.

(** ** Regular expressions

    The fragment of ECMAScript regular expressions the validation block
    uses, without flags: character classes, sequence, the greedy
    quantifiers, the assertions [^] and [$], and negative lookahead. *)

Module Regex.

(** One member of a bracketed class. *)
Inductive citem :=
| One (c : ascii)            (* a literal character *)
| Range (lo hi : ascii)      (* lo-hi *)
| Digit                      (* \d *)
| Space                      (* \s *)
| NonWord.                   (* \W *)

Inductive re :=
| Eps                        (* the empty pattern *)
| Bos                        (* ^ *)
| Eos                        (* $ *)
| Class (cs : list citem)    (* [...] ; a one-member class is the atom itself *)
| Seq (a b : re)
| Star (a : re)              (* a* *)
| NegLook (a : re).          (* (?!a) *)

(** [a+] and [a{3}], as the engine expands them. *)
Definition Plus (a : re) : re := Seq a (Star a).
Definition Rep3 (a : re) : re := Seq a (Seq a a).

(** The literal text [s]. *)
Fixpoint Lit (s : string) : re :=
  match s with
  | EmptyString => Eps
  | String c s' => Seq (Class [One c]) (Lit s')
  end.

Definition in_range (lo hi c : N) : bool := N.leb lo c && N.leb c hi.

Definition is_digit (c : char16) : bool := in_range 48 57 c.

(** WhiteSpace and LineTerminator of ECMAScript: TAB LF VT FF CR SP,
    NBSP, U+1680, U+2000..U+200A, U+2028, U+2029, U+202F, U+205F,
    U+3000, U+FEFF. *)
Definition is_space (c : char16) : bool :=
  in_range 9 13 c || N.eqb c 32 || N.eqb c 160 || N.eqb c 5760
  || in_range 8192 8202 c || N.eqb c 8232 || N.eqb c 8233
  || N.eqb c 8239 || N.eqb c 8287 || N.eqb c 12288 || N.eqb c 65279.

(** [\w] is [A-Za-z0-9_]. *)
Definition is_word (c : char16) : bool :=
  in_range 65 90 c || in_range 97 122 c || is_digit c || N.eqb c 95.

Definition item_mem (i : citem) (c : char16) : bool :=
  match i with
  | One a => N.eqb c (code a)
  | Range lo hi => in_range (code lo) (code hi) c
  | Digit => is_digit c
  | Space => is_space c
  | NonWord => negb (is_word c)
  end.

Definition class_mem (cs : list citem) (c : char16) : bool :=
  existsb (fun i => item_mem i c) cs.

(** Backtracking matcher in continuation-passing style.  [i] is the
    index of the current position in the input, [s] the input from
    there on.  An iteration of [a*] that succeeds hands the rest to the
    next iteration; at most [length s] iterations can consume input. *)
Fixpoint m (r : re) (k : nat -> jsstring -> bool) (i : nat) (s : jsstring)
  : bool :=
  match r with
  | Eps => k i s
  | Bos => Nat.eqb i 0 && k i s
  | Eos => match s with [] => k i s | _ :: _ => false end
  | Class cs =>
      match s with
      | c :: s' => class_mem cs c && k (S i) s'
      | [] => false
      end
  | Seq a b => m a (m b k) i s
  | Star a =>
      (fix loop (n : nat) (i : nat) (s : jsstring) : bool :=
         match n with
         | O => k i s
         | S n' => m a (loop n') i s || k i s
         end) (List.length s) i s
  | NegLook a => negb (m a (fun _ _ => true) i s) && k i s
  end.

(** The loop of the [Star] case, for the proofs. *)
Definition star_loop (a : re) (k : nat -> jsstring -> bool) :=
  fix loop (n : nat) (i : nat) (s : jsstring) : bool :=
    match n with
    | O => k i s
    | S n' => m a (loop n') i s || k i s
    end.

(** The continuation of a whole pattern: the match is found. *)
Definition accept : nat -> jsstring -> bool := fun _ _ => true.

(** [RegExp.prototype.test] for a pattern without flags: a match is
    attempted from every index of the input, from 0 on. *)
Definition test (r : re) (s : jsstring) : bool :=
  existsb (fun i => m r accept i (skipn i s)) (seq 0 (S (List.length s))).

End Regex.

Import Regex.

(** The four patterns of the validation block. *)

(* /^[A-Z][a-zA-Z]+(?: [A-Z][a-zA-Z]+)*$/ *)
Definition re_empName : re :=
  Seq Bos
  (Seq (Class [Range "A" "Z"])
  (Seq (Plus (Class [Range "a" "z"; Range "A" "Z"]))
  (Seq (Star (Seq (Class [One " "])
             (Seq (Class [Range "A" "Z"])
                  (Plus (Class [Range "a" "z"; Range "A" "Z"])))))
       Eos))).

(* /^[A-Za-z]+(?: [A-Za-z]+)*$/ *)
Definition re_position : re :=
  Seq Bos
  (Seq (Plus (Class [Range "A" "Z"; Range "a" "z"]))
  (Seq (Star (Seq (Class [One " "])
                  (Plus (Class [Range "A" "Z"; Range "a" "z"]))))
       Eos)).

(* /^ATS0(?!000)\d{3}$/ *)
Definition re_empId : re :=
  Seq Bos
  (Seq (Lit "ATS0")
  (Seq (NegLook (Lit "000"))
  (Seq (Rep3 (Class [Digit]))
       Eos))).

(* /^[0-9\s\W_]+$/ *)
Definition re_nonalpha : re :=
  Seq Bos
  (Seq (Plus (Class [Range "0" "9"; Space; NonWord; One "_"]))
       Eos).

(** ** Values of the request body *)

(** A JavaScript number. *)
Inductive number :=
| NaN
| Infinity (negative : bool)
| Fin (q : Q).

(** The number literal [z] of the source. *)
Definition lit (z : Z) : number := Fin (inject_Z z).

(** [a < b] on numbers: false as soon as one side is NaN. *)
Definition js_lt (a b : number) : bool :=
  match a, b with
  | NaN, _ | _, NaN => false
  | Infinity true, Infinity true => false
  | Infinity true, _ => true
  | _, Infinity true => false
  | Infinity false, _ => false
  | Fin _, Infinity false => true
  | Fin p, Fin q => negb (Qle_bool q p)
  end.

(** [a > b] is [b < a]. *)
Definition js_gt (a b : number) : bool := js_lt b a.

(** What a text field of [req.body] holds. *)
Inductive jstext :=
| TUndefined
| TNull
| TString (s : jsstring).

(** What a numeric field of [req.body] holds. *)
Inductive jsnum :=
| NUndefined
| NNull
| NNumber (n : number).

(** [!x] is [negb (truthy x)]: undefined, null and the empty string are
    falsy. *)
Definition truthy (x : jstext) : bool :=
  match x with
  | TString (_ :: _) => true
  | _ => false
  end.

(** The string [RegExp.prototype.test] works on. *)
Definition ToString (x : jstext) : jsstring :=
  match x with
  | TUndefined => u "undefined"
  | TNull => u "null"
  | TString s => s
  end.

(** [x.length > n].  The source reads [.length] only behind [!x ||], that
    is on a non-empty string; on undefined and null, where the read would
    throw, the value given here is never looked at. *)
Definition length_gt (x : jstext) (n : nat) : bool :=
  match x with
  | TString s => Nat.ltb n (List.length s)
  | _ => false
  end.

(** [l.includes(x)]: SameValueZero, so only a string equals a string. *)
Definition includes (l : list jsstring) (x : jstext) : bool :=
  match x with
  | TString s => existsb (jsstring_eqb s) l
  | _ => false
  end.

Definition ToNumber (x : jsnum) : number :=
  match x with
  | NUndefined => NaN
  | NNull => Fin 0
  | NNumber n => n
  end.

(** The global [isNaN]. *)
Definition isNaN (x : jsnum) : bool :=
  match ToNumber x with
  | NaN => true
  | _ => false
  end.

(** [req.body], destructured. *)
Module Body.
Record t := mk {
  empName : jstext;
  position : jstext;
  department : jstext;
  empId : jstext;
  feedback : jstext;
  finalSalary : jsnum;
  bonus : jsnum;
  acknowledgment : jstext
}.
End Body.

(** ** The validation block

    The same eight [if] statements open the submit handler of both
    servers; each definition below is the condition of one of them, on
    the variable the handler destructures from the body. *)

Definition departments : list jsstring :=
  [u "Engineering"; u "Marketing"; u "HR"; u "Finance"].

Definition invalid_empName (empName : jstext) : bool :=
  negb (truthy empName) || negb (test re_empName (ToString empName)).

Definition invalid_position (position : jstext) : bool :=
  negb (truthy position) || negb (test re_position (ToString position)).

Definition invalid_department (department : jstext) : bool :=
  negb (truthy department) || negb (includes departments department).

Definition invalid_empId (empId : jstext) : bool :=
  negb (truthy empId) || negb (test re_empId (ToString empId)).

Definition invalid_feedback (feedback : jstext) : bool :=
  negb (truthy feedback) || length_gt feedback 500
  || test re_nonalpha (ToString feedback).

Definition invalid_acknowledgment (acknowledgment : jstext) : bool :=
  negb (truthy acknowledgment) || length_gt acknowledgment 300
  || test re_nonalpha (ToString acknowledgment).

Definition invalid_finalSalary (finalSalary : jsnum) : bool :=
  isNaN finalSalary || js_lt (ToNumber finalSalary) (lit 1000)
  || js_gt (ToNumber finalSalary) (lit 1000000).

Definition invalid_bonus (bonus : jsnum) : bool :=
  isNaN bonus || js_lt (ToNumber bonus) (lit 0)
  || js_gt (ToNumber bonus) (lit 100000).

(** The block itself: the message of the first [return], or [None] when
    control reaches the insert. *)
Definition validation (b : Body.t) : option string :=
  if invalid_empName (Body.empName b) then Some "Invalid employee name"%string
  else if invalid_position (Body.position b) then Some "Invalid position"%string
  else if invalid_department (Body.department b)
  then Some "Invalid department"%string
  else if invalid_empId (Body.empId b) then Some "Invalid employee ID"%string
  else if invalid_feedback (Body.feedback b) then Some "Invalid feedback"%string
  else if invalid_acknowledgment (Body.acknowledgment b)
  then Some "Invalid acknowledgment"%string
  else if invalid_finalSalary (Body.finalSalary b)
  then Some "Invalid final salary"%string
  else if invalid_bonus (Body.bonus b) then Some "Invalid bonus amount"%string
  else None.

(** The rules as a table, in the order of the source: the field a rule
    is about, its condition and its message. *)
Inductive field :=
| FempName | Fposition | Fdepartment | FempId
| Ffeedback | Facknowledgment | FfinalSalary | Fbonus.

Record rule := mkRule {
  rule_field : field;
  rule_fails : Body.t -> bool;
  rule_message : string
}.

Definition rules : list rule :=
  [ mkRule FempName (fun b => invalid_empName (Body.empName b))
           "Invalid employee name";
    mkRule Fposition (fun b => invalid_position (Body.position b))
           "Invalid position";
    mkRule Fdepartment (fun b => invalid_department (Body.department b))
           "Invalid department";
    mkRule FempId (fun b => invalid_empId (Body.empId b))
           "Invalid employee ID";
    mkRule Ffeedback (fun b => invalid_feedback (Body.feedback b))
           "Invalid feedback";
    mkRule Facknowledgment
           (fun b => invalid_acknowledgment (Body.acknowledgment b))
           "Invalid acknowledgment";
    mkRule FfinalSalary (fun b => invalid_finalSalary (Body.finalSalary b))
           "Invalid final salary";
    mkRule Fbonus (fun b => invalid_bonus (Body.bonus b))
           "Invalid bonus amount" ].

(** The scenario of the specification. *)
Definition jane : Body.t :=
  Body.mk (TString (u "Jane Doe")) (TString (u "Engineer"))
          (TString (u "Engineering")) (TString (u "ATS0123"))
          (TString (u "Great team, sad to leave."))
          (NNumber (lit 75000)) (NNumber (lit 5000))
          (TString (u "I acknowledge receipt of my final pay.")).

(** ** Responses *)

(** JSON as [res.json] sends it.  A NUMERIC column reaches the client as
    the decimal text of its value and a timestamp as the ISO text of its
    instant; both are kept as the value they print. *)
Inductive json :=
| JInt (z : Z)
| JString (s : jsstring)
| JNumeric (n : number)
| JDate (t : Z)
| JArray (l : list json)
| JObject (members : list (string * json)).

Record response := mkResponse {
  status : Z;
  payload : json
}.

(** The keys of an object, in order. *)
Definition keys (j : json) : list string :=
  match j with
  | JObject members => map fst members
  | _ => []
  end.

Fixpoint get (key : string) (members : list (string * json)) : option json :=
  match members with
  | [] => None
  | (k, v) :: rest => if String.eqb k key then Some v else get key rest
  end.

(** ** The store

    The table [offboarding] of [createTableQuery] and the two statements
    the handlers send to it. *)

Module Db.

Record row := mkRow {
  id : Z;
  employee_name : jsstring;
  position : jsstring;
  department : jsstring;
  employee_id : jsstring;
  feedback : jsstring;
  final_salary : number;
  bonus : number;
  acknowledgment : jsstring;
  created_at : Z
}.

(** The server: whether it answers, the table, and the next value of
    the sequence behind [id SERIAL].  A row keeps the texts and numbers
    it was given. *)
Record t := mk {
  up : bool;
  rows : list row;
  next_id : Z
}.

(** The array [values] of the submit handler, [$1] to [$8]; [None] is
    SQL NULL, which is what the driver sends for undefined and null. *)
Record values := mkValues {
  v_employee_name : option jsstring;
  v_position : option jsstring;
  v_department : option jsstring;
  v_employee_id : option jsstring;
  v_feedback : option jsstring;
  v_final_salary : option number;
  v_bonus : option number;
  v_acknowledgment : option jsstring
}.

(** Outcome of [pool.query]: the promise resolves, or rejects with an
    error whose [code] is given. *)
Inductive outcome (A : Type) :=
| Resolved (a : A)
| Rejected (code : string).
Arguments Resolved {A} a.
Arguments Rejected {A} code.

(** A text value is refused when it holds the character U+0000. *)
Definition not_nul (c : char16) : bool := negb (N.eqb c 0).

Definition encodable (v : option jsstring) : bool :=
  match v with
  | Some s => forallb not_nul s
  | None => true
  end.

(** Assignment to VARCHAR(n): a longer value is cut when only spaces
    are cut off, and refused otherwise.  Lengths are in code units;
    PostgreSQL counts characters, which is the same on the ASCII
    strings that pass the validation block. *)
Definition varchar (n : nat) (v : option jsstring)
  : option (option jsstring) :=
  match v with
  | None => Some None
  | Some s =>
      if Nat.leb (List.length s) n then Some (Some s)
      else if forallb (N.eqb 32) (skipn n s) then Some (Some (firstn n s))
      else None
  end.

(** Assignment to NUMERIC(10, 2): eight digits before the point.  The
    rounding of the stored value to two decimals is not modelled: the
    row keeps the number it was given. *)
Definition numeric_10_2 (v : option number) : option (option number) :=
  match v with
  | None => Some None
  | Some NaN => Some (Some NaN)
  | Some (Infinity _) => None
  | Some (Fin q) =>
      if Qle_bool (99999999995 # 1000) (Qabs q) then None
      else Some (Some (Fin q))
  end.

Definition taken (employee : jsstring) (table : list row) : bool :=
  existsb (fun r => jsstring_eqb (employee_id r) employee) table.

(** [pool.query(insertQuery, values)] at server time [now].

    The parameters are decoded and brought to the column types before
    the row is built (SQLSTATE 22021, 22001, 22003); then the sequence
    gives the id, and the NOT NULL constraints (23502) and the UNIQUE
    index on [employee_id] (23505) are checked.  A value drawn from the
    sequence is not given back when the statement fails.  When the
    server cannot be reached the promise rejects with an error of the
    driver, whose code is not an SQLSTATE. *)
Definition insert (now : Z) (db : t) (v : values) : outcome Z * t :=
  if negb (up db) then (Rejected "ECONNREFUSED", db)
  else if negb (encodable (v_employee_name v) && encodable (v_position v)
                && encodable (v_department v) && encodable (v_employee_id v)
                && encodable (v_feedback v) && encodable (v_acknowledgment v))
  then (Rejected "22021", db)
  else
    match varchar 30 (v_employee_name v), varchar 30 (v_position v),
          varchar 50 (v_department v), varchar 7 (v_employee_id v) with
    | Some name, Some pos, Some dep, Some emp =>
        match numeric_10_2 (v_final_salary v), numeric_10_2 (v_bonus v) with
        | Some salary, Some bon =>
            let db' := mk (up db) (rows db) (next_id db + 1) in
            match name, pos, dep, emp, v_feedback v, salary, bon,
                  v_acknowledgment v with
            | Some name, Some pos, Some dep, Some emp, Some fb,
              Some salary, Some bon, Some ack =>
                if taken emp (rows db) then (Rejected "23505", db')
                else
                  let r := mkRow (next_id db) name pos dep emp fb salary
                                 bon ack now in
                  (Resolved (next_id db),
                   mk (up db) (rows db ++ [r]) (next_id db + 1))
            | _, _, _, _, _, _, _, _ => (Rejected "23502", db')
            end
        | _, _ => (Rejected "22003", db)
        end
    | _, _, _, _ => (Rejected "22001", db)
    end.

(** ORDER BY created_at DESC, as an insertion sort.  Rows with the same
    timestamp come in the order the sort leaves them; PostgreSQL
    promises no order among them. *)
Fixpoint insert_desc (r : row) (l : list row) : list row :=
  match l with
  | [] => [r]
  | x :: l' =>
      if Z.leb (created_at x) (created_at r) then r :: x :: l'
      else x :: insert_desc r l'
  end.

Fixpoint order_by_created_at_desc (l : list row) : list row :=
  match l with
  | [] => []
  | r :: l' => insert_desc r (order_by_created_at_desc l')
  end.

End Db.

(** The driver's conversion of a parameter. *)
Definition text_param (x : jstext) : option jsstring :=
  match x with
  | TString s => Some s
  | _ => None
  end.

Definition number_param (x : jsnum) : option number :=
  match x with
  | NNumber n => Some n
  | _ => None
  end.

(** The array [values] both submit handlers build. *)
Definition values_of (b : Body.t) : Db.values :=
  Db.mkValues (text_param (Body.empName b))
              (text_param (Body.position b))
              (text_param (Body.department b))
              (text_param (Body.empId b))
              (text_param (Body.feedback b))
              (number_param (Body.finalSalary b))
              (number_param (Body.bonus b))
              (text_param (Body.acknowledgment b)).

Definition error_body (msg : string) : json :=
  JObject [("error"%string, JString (u msg))].

(** [pool.query(query)] of the list handlers: the SELECT list [project]
    applied to the rows in the order of ORDER BY. *)
Definition select (project : Db.row -> json) (db : Db.t)
  : Db.outcome (list json) :=
  if Db.up db
  then Db.Resolved (map project (Db.order_by_created_at_desc (Db.rows db)))
  else Db.Rejected "ECONNREFUSED".

(** ** The server on port 3100 *)

Module Server3100.

(** What the health handler reads: the clock and [pool.totalCount],
    the number of clients the pool holds at the moment. *)
Definition get_health (now : Z) (totalCount : nat) : response :=
  mkResponse 200
    (JObject [("status"%string, JString (u "healthy"));
              ("timestamp"%string, JDate now);
              ("database"%string,
               JString (if Nat.ltb 0 totalCount then u "connected"
                        else u "disconnected"))]).

Definition post_submit (now : Z) (db : Db.t) (b : Body.t)
  : response * Db.t :=
  match validation b with
  | Some msg => (mkResponse 400 (error_body msg), db)
  | None =>
      match Db.insert now db (values_of b) with
      | (Db.Resolved id, db') =>
          (mkResponse 201
             (JObject [("message"%string,
                        JString (u "Offboarding form submitted successfully"));
                       ("id"%string, JInt id)]),
           db')
      | (Db.Rejected code, db') =>
          if String.eqb code "23505"
          then (mkResponse 409 (error_body "Employee ID already exists"), db')
          else (mkResponse 500 (error_body "Internal server error"), db')
      end
  end.

Definition project (r : Db.row) : json :=
  JObject [("empName"%string, JString (Db.employee_name r));
           ("position"%string, JString (Db.position r));
           ("department"%string, JString (Db.department r));
           ("empId"%string, JString (Db.employee_id r));
           ("feedback"%string, JString (Db.feedback r));
           ("finalSalary"%string, JNumeric (Db.final_salary r));
           ("bonus"%string, JNumeric (Db.bonus r));
           ("acknowledgment"%string, JString (Db.acknowledgment r));
           ("createdAt"%string, JDate (Db.created_at r))].

Definition get_offboarding (db : Db.t) : response :=
  match select project db with
  | Db.Resolved result_rows => mkResponse 200 (JArray result_rows)
  | Db.Rejected _ => mkResponse 500 (error_body "Internal server error")
  end.

End Server3100.

(** ** The server of Backend/server.js, on port 3021 *)

Module Server3021.

(** The error-handling middleware, reached through [next(error)]. *)
Definition error_middleware : response :=
  mkResponse 500 (error_body "Internal server error. Please try again later.").

Definition post_submit (now : Z) (db : Db.t) (b : Body.t)
  : response * Db.t :=
  match validation b with
  | Some msg => (mkResponse 400 (error_body msg), db)
  | None =>
      match Db.insert now db (values_of b) with
      | (Db.Resolved id, db') =>
          (mkResponse 200
             (JObject [("message"%string,
                        JString (u "Offboarding form submitted successfully"));
                       ("id"%string, JInt id)]),
           db')
      | (Db.Rejected code, db') =>
          if String.eqb code "23505"
          then (mkResponse 400 (error_body "Employee ID already exists"), db')
          else (error_middleware, db')
      end
  end.

Definition project (r : Db.row) : json :=
  JObject [("empName"%string, JString (Db.employee_name r));
           ("position"%string, JString (Db.position r));
           ("department"%string, JString (Db.department r));
           ("empId"%string, JString (Db.employee_id r));
           ("feedback"%string, JString (Db.feedback r));
           ("finalSalary"%string, JNumeric (Db.final_salary r));
           ("bonus"%string, JNumeric (Db.bonus r));
           ("acknowledgment"%string, JString (Db.acknowledgment r))].

Definition get_offboarding (db : Db.t) : response :=
  match select project db with
  | Db.Resolved result_rows => mkResponse 200 (JArray result_rows)
  | Db.Rejected _ => error_middleware
  end.

End Server3021.

Definition empty_db : Db.t := Db.mk true [] 1.

(** ** Start-up of the server on port 3100

    The start-up sequence is run against a world that decides how each
    call of [pool.connect] and the CREATE TABLE statement end; what the
    process does is recorded as a trace of events. *)

Module Startup.

Inductive event :=
| Connect (ok : bool)        (* a call of pool.connect() has settled *)
| Sleep (ms : Z)             (* a setTimeout of ms milliseconds was awaited *)
| CreateTable (ok : bool)    (* pool.query(createTableQuery) has settled *)
| Listen (port : Z)          (* app.listen(port, '0.0.0.0') *)
| Exit (code : Z).           (* process.exit(code) *)

Definition trace := list event.

Record world := mkWorld {
  connect_ok : nat -> bool;  (* does call n of pool.connect, from 0, succeed *)
  create_ok : bool           (* does CREATE TABLE IF NOT EXISTS succeed *)
}.

(** How an async function ends. *)
Inductive completion :=
| ReturnTrue                 (* resolves with true *)
| ReturnUndefined            (* resolves by falling off the end *)
| Throw                      (* rejects with the caught error *)
| Exited (code : Z).         (* the process is gone *)

Definition is_connect (e : event) : bool :=
  match e with Connect _ => true | _ => false end.

Definition connects (tr : trace) : nat :=
  List.length (filter is_connect tr).

(** The [while] loop of [connectWithRetry], entered with the current
    value of [attempts] and the trace so far. *)
Equations? retry (w : world) (maxAttempts : nat) (delay : Z)
           (attempts : nat) (tr : trace) : trace * completion
  by wf (maxAttempts - attempts) lt :=
  retry w maxAttempts delay attempts tr with lt_dec attempts maxAttempts => {
    | right _ := (tr, ReturnUndefined)
    | left _ with connect_ok w (connects tr) => {
        | true := (tr ++ [Connect true], ReturnTrue)
        | false with lt_dec (S attempts) maxAttempts => {
            | left _ :=
                retry w maxAttempts delay (S attempts)
                      (tr ++ [Connect false; Sleep delay])
            | right _ := (tr ++ [Connect false], Throw) } } }.
Proof. lia. Qed.

(** [connectWithRetry(maxAttempts, delay)]: [let attempts = 0], then
    the loop. *)
Definition connectWithRetry (w : world) (maxAttempts : nat) (delay : Z)
           (tr : trace) : trace * completion :=
  retry w maxAttempts delay 0 tr.

(** [initializeDatabase]: the call [connectWithRetry()] takes the
    default arguments 5 and 5000. *)
Definition initializeDatabase (w : world) (tr : trace) : trace * completion :=
  match connectWithRetry w 5 5000 tr with
  | (tr1, ReturnTrue) | (tr1, ReturnUndefined) =>
      if create_ok w then (tr1 ++ [CreateTable true], ReturnTrue)
      else (tr1 ++ [CreateTable false; Exit 1], Exited 1)
  | (tr1, Throw) => (tr1 ++ [Exit 1], Exited 1)
  | (tr1, Exited c) => (tr1, Exited c)
  end.

Definition port : Z := 3100.

(** [initializeDatabase().then(listen).catch(exit)], from an empty
    trace. *)
Definition main (w : world) : trace :=
  match initializeDatabase w [] with
  | (tr, ReturnTrue) | (tr, ReturnUndefined) => tr ++ [Listen port]
  | (tr, Throw) => tr ++ [Exit 1]
  | (tr, Exited _) => tr
  end.

(** A world where the database answers from the third call on. *)
Definition third_time : world := mkWorld (fun n => Nat.leb 2 n) true.

Definition never : world := mkWorld (fun _ => false) true.

End Startup.

(** ** The connection pool, as far as the health check sees it

    [pool.totalCount] counts the clients the pool holds, idle or checked
    out.  The pool of [poolConfig] opens a client when one is asked for
    and none is idle, and closes a client that stayed idle for
    [idleTimeoutMillis].  The store goes down and comes back on its own. *)

Module Pool.

Record t := mk {
  reachable : bool;          (* does the store accept connections *)
  totalCount : nat;          (* clients held by the pool *)
  idleCount : nat            (* of which idle *)
}.

Definition max : nat := 20.

Inductive step : t -> t -> Prop :=
| Open n i :                 (* a client is opened and checked out *)
    (n < max)%nat ->
    step (mk true n i) (mk true (S n) i)
| Release r n i :            (* a checked-out client comes back *)
    (i < n)%nat ->
    step (mk r n i) (mk r n (S i))
| Checkout r n i :           (* an idle client is handed out *)
    step (mk r n (S i)) (mk r n i)
| IdleTimeout r n i :        (* an idle client is closed after 30 s *)
    step (mk r (S n) (S i)) (mk r n i)
| Outage n i :
    step (mk true n i) (mk false n i)
| Recovery n i :
    step (mk false n i) (mk true n i).

Inductive steps : t -> t -> Prop :=
| steps_refl p : steps p p
| steps_cons p q r : step p q -> steps q r -> steps p r.

(** [new Pool(poolConfig)] with the store up: no client yet. *)
Definition fresh : t := mk true 0 0.

End Pool.

(** ** Vocabulary of the properties *)

(** An ASCII letter: a word character that is neither a digit nor the
    underscore. *)
Definition is_letter (c : char16) : bool :=
  in_range 65 90 c || in_range 97 122 c.

(** The three decimal digits of [n], for [n] below 1000. *)
Definition pad3 (n : nat) : jsstring :=
  [N.of_nat (48 + n / 100); N.of_nat (48 + (n / 10) mod 10);
   N.of_nat (48 + n mod 10)].

(** The value stands for a number in the closed interval from [lo] to
    [hi]. *)
Definition number_between (lo hi : Z) (x : jsnum) : Prop :=
  exists q : Q,
    ToNumber x = Fin q /\ (inject_Z lo <= q)%Q /\ (q <= inject_Z hi)%Q.

(** Rows of the table with the given employee identifier. *)
Definition rows_of (employee : jsstring) (db : Db.t) : list Db.row :=
  filter (fun r => jsstring_eqb (Db.employee_id r) employee) (Db.rows db).

(** What the constraints of [createTableQuery] keep true of the table:
    employee identifiers are unique, and every id was drawn from the
    sequence. *)
Definition consistent (db : Db.t) : Prop :=
  NoDup (map Db.employee_id (Db.rows db))
  /\ Forall (fun r => (Db.id r < Db.next_id db)%Z) (Db.rows db).

(** Newest first. *)
Definition newer_or_same (a b : Db.row) : Prop :=
  (Db.created_at b <= Db.created_at a)%Z.

Definition the_keys : list string :=
  ["empName"; "position"; "department"; "empId"; "feedback"; "finalSalary";
   "bonus"; "acknowledgment"; "createdAt"]%string.

(** The characters of a text field. *)
Definition chars (x : jstext) : jsstring :=
  match x with
  | TString s => s
  | _ => []
  end.

(** The store can hold the body: name and position fit their columns,
    the free texts have no U+0000, and the bonus is not null. *)
Definition storable (b : Body.t) : Prop :=
  (List.length (chars (Body.empName b)) <= 30)%nat
  /\ (List.length (chars (Body.position b)) <= 30)%nat
  /\ ~ In 0%N (chars (Body.feedback b))
  /\ ~ In 0%N (chars (Body.acknowledgment b))
  /\ Body.bonus b <> NNull.

Definition nonalpha_class : list citem :=
  [Range "0" "9"; Space; NonWord; One "_"].

(** The strings [re_empId] matches, spelt out. *)
Definition empId_shape (s : jsstring) : bool :=
  match s with
  | [a; t; s0; z; d1; d2; d3] =>
      N.eqb a 65 && N.eqb t 84 && N.eqb s0 83 && N.eqb z 48
      && negb (N.eqb d1 48 && N.eqb d2 48 && N.eqb d3 48)
      && is_digit d1 && is_digit d2 && is_digit d3
  | _ => false
  end.

(** The start of a trace with [k] failed attempts, each followed by the
    wait. *)
Definition failed_with (delay : Z) (k : nat) : Startup.trace :=
  List.concat (repeat [Startup.Connect false; Startup.Sleep delay] k).

Definition failed (k : nat) : Startup.trace := failed_with 5000 k.

(** ** Statements that do not hold of both servers *)

Definition handler := Z -> Db.t -> Body.t -> response * Db.t.

Definition submitted (id : Z) : json :=
  JObject [("message"%string,
            JString (u "Offboarding form submitted successfully"));
           ("id"%string, JInt id)].

(** Of a submit handler: a validated body whose employee identifier is
    in the table is answered with 409 and leaves one row for the
    identifier. *)
Definition duplicate_gets_409 (post : handler) : Prop :=
  forall (now : Z) (db : Db.t) (b : Body.t),
    consistent db -> Db.up db = true -> validation b = None ->
    Db.taken (chars (Body.empId b)) (Db.rows db) = true ->
    fst (post now db b)
    = mkResponse 409 (error_body "Employee ID already exists")
    /\ List.length (rows_of (chars (Body.empId b)) (snd (post now db b)))
       = 1%nat.

(** Of a submit handler: a validated body whose employee identifier is
    not in the table is answered with 201, a message and an id. *)
Definition new_gets_201 (post : handler) : Prop :=
  forall (now : Z) (db : Db.t) (b : Body.t),
    consistent db -> Db.up db = true -> validation b = None ->
    Db.taken (chars (Body.empId b)) (Db.rows db) = false ->
    exists id, fst (post now db b) = mkResponse 201 (submitted id).

(** The row the insert builds from a body. *)
Definition row_of (id now : Z) (b : Body.t) : Db.row :=
  Db.mkRow id (chars (Body.empName b)) (chars (Body.position b))
           (chars (Body.department b)) (chars (Body.empId b))
           (chars (Body.feedback b)) (ToNumber (Body.finalSalary b))
           (ToNumber (Body.bonus b)) (chars (Body.acknowledgment b)) now.

(** A name of 31 letters: it matches [re_empName] and does not fit
    VARCHAR(30). *)
Definition long_name : Body.t :=
  Body.mk (TString (u "Abcdefghijklmnopqrstuvwxyzabcde")) (Body.position jane)
          (Body.department jane) (Body.empId jane) (Body.feedback jane)
          (Body.finalSalary jane) (Body.bonus jane) (Body.acknowledgment jane).

(** The table after Jane's record was stored at time 10. *)
Definition jane_stored : Db.t :=
  Db.mk true [row_of 1 10 jane] 2.

(** Of a list handler: with the store up, the answer is 200 with one
    object per row, newest first, each with the keys [ks]. *)
Definition lists_with_keys (list_all : Db.t -> response) (ks : list string)
  : Prop :=
  forall db : Db.t,
    Db.up db = true ->
    exists (ordered : list Db.row) (elements : list json),
      Permutation ordered (Db.rows db)
      /\ StronglySorted newer_or_same ordered
      /\ list_all db = mkResponse 200 (JArray elements)
      /\ List.length elements = List.length ordered
      /\ Forall (fun j => keys j = ks) elements.

(** The [database] member of a health answer. *)
Definition database_of (r : response) : option json :=
  match payload r with
  | JObject members => get "database" members
  | _ => None
  end.

(** Of a health handler: in every state of pool and store, the answer
    says "connected" exactly when the store is reachable and
    "disconnected" exactly when it is not. *)
Definition health_reflects_store (health : Z -> nat -> response) : Prop :=
  forall (now : Z) (p : Pool.t),
    Pool.steps Pool.fresh p ->
    (database_of (health now (Pool.totalCount p))
     = Some (JString (u "connected")) <-> Pool.reachable p = true)
    /\ (database_of (health now (Pool.totalCount p))
        = Some (JString (u "disconnected")) <-> Pool.reachable p = false).

(** A body that breaks the last rule only. *)
Definition negative_bonus : Body.t :=
  Body.mk (Body.empName jane) (Body.position jane) (Body.department jane)
          (Body.empId jane) (Body.feedback jane) (Body.finalSalary jane)
          (NNumber (lit (-1))) (Body.acknowledgment jane).

(** A body that breaks the rules of empId, feedback and bonus. *)
Definition three_faults : Body.t :=
  Body.mk (Body.empName jane) (Body.position jane) (Body.department jane)
          (TString (u "ATS0000")) (TString (u "12345"))
          (Body.finalSalary jane) (NNumber (lit (-1)))
          (Body.acknowledgment jane).

(** Two records, the later one stored last. *)
Definition two_rows : Db.t :=
  Db.mk true [row_of 1 10 jane; row_of 2 20 long_name] 3.

(** Every class of the pattern, lookaheads apart, lies within [p]. *)
Fixpoint classes_within (p : char16 -> bool) (r : re) : Prop :=
  match r with
  | Class cs => forall c, class_mem cs c = true -> p c = true
  | Seq a b => classes_within p a /\ classes_within p b
  | Star a => classes_within p a
  | Eps | Bos | Eos | NegLook _ => True
  end.

(** From [s], a prefix of characters in [p] leads to a point where the
    continuation [k] succeeds. *)
Definition reaches (p : char16 -> bool) (k : nat -> jsstring -> bool)
           (s : jsstring) : Prop :=
  exists s1 s2 i, s = s1 ++ s2 /\ forallb p s1 = true /\ k i s2 = true.

(** ** The language of a pattern

    The strings a pattern built from classes, sequence and star
    consumes, for the patterns that have no assertion inside. *)

Fixpoint lang (r : re) (w : jsstring) : Prop :=
  match r with
  | Eps => w = []
  | Class cs => exists c, w = [c] /\ class_mem cs c = true
  | Seq a b => exists w1 w2, w = w1 ++ w2 /\ lang a w1 /\ lang b w2
  | Star a => exists ws, Forall (lang a) ws /\ w = List.concat ws
  | Bos | Eos | NegLook _ => False
  end.

(** No assertion, and no star over a pattern that can match the empty
    string. *)
Fixpoint plain (r : re) : Prop :=
  match r with
  | Eps | Class _ => True
  | Seq a b => plain a /\ plain b
  | Star a => plain a /\ forall w, lang a w -> w <> []
  | Bos | Eos | NegLook _ => False
  end.

(** A continuation that does not look at the index. *)
Definition blind (k : nat -> jsstring -> bool) : Prop :=
  forall i j s, k i s = k j s.

Definition is_upper (c : char16) : bool := in_range 65 90 c.

(** A word of the position pattern: one letter or more. *)
Definition letters_word (w : jsstring) : Prop :=
  w <> [] /\ forallb is_letter w = true.

(** A word of the name pattern: a capital, then one letter or more. *)
Definition capitalised (w : jsstring) : Prop :=
  exists c rest,
    w = c :: rest /\ is_upper c = true /\ rest <> []
    /\ forallb is_letter rest = true.

(** The words, with one space between neighbours. *)
Definition join (ws : list jsstring) : jsstring :=
  match ws with
  | [] => []
  | w :: rest => w ++ List.concat (map (cons 32%N) rest)
  end.

(* [A-Z][a-zA-Z]+ and [A-Za-z]+, the words of the two patterns *)
Definition re_capitalised : re :=
  Seq (Class [Range "A" "Z"]) (Plus (Class [Range "a" "z"; Range "A" "Z"])).

Definition re_letters : re := Plus (Class [Range "A" "Z"; Range "a" "z"]).

(** [^W(?: W)*$] without its anchors. *)
Definition spaced (word : re) : re :=
  Seq word (Star (Seq (Class [One " "]) word)).

(** The bodies the validation block lets through, field by field. *)
Definition acceptable (b : Body.t) : Prop :=
  (exists s, Body.empName b = TString s
             /\ exists ws, ws <> [] /\ Forall capitalised ws /\ s = join ws)
  /\ (exists s, Body.position b = TString s
                /\ exists ws, ws <> [] /\ Forall letters_word ws
                              /\ s = join ws)
  /\ (exists s, Body.department b = TString s /\ In s departments)
  /\ (exists s, Body.empId b = TString s
                /\ exists d1 d2 d3 : char16,
                    s = u "ATS0" ++ [d1; d2; d3]
                    /\ is_digit d1 = true /\ is_digit d2 = true
                    /\ is_digit d3 = true /\ [d1; d2; d3] <> u "000")
  /\ (exists s, Body.feedback b = TString s
                /\ s <> [] /\ (List.length s <= 500)%nat
                /\ exists c, In c s /\ is_letter c = true)
  /\ (exists s, Body.acknowledgment b = TString s
                /\ s <> [] /\ (List.length s <= 300)%nat
                /\ exists c, In c s /\ is_letter c = true)
  /\ number_between 1000 1000000 (Body.finalSalary b)
  /\ number_between 0 100000 (Body.bonus b).

(** ** Requests in sequence

    Every handler sends one statement to the store, so what a run of the
    server does to the table is what its requests do one after another.
    Between two requests the store may go down or come back. *)

Inductive request :=
| Submit (now : Z) (b : Body.t)  (* POST /api/offboarding/submit *)
| ListAll                        (* GET /api/offboarding *)
| StoreDown                      (* the store stops answering *)
| StoreUp.                       (* the store answers again *)

Definition set_up (up : bool) (db : Db.t) : Db.t :=
  Db.mk up (Db.rows db) (Db.next_id db).

(** One request; the store events have no response. *)
Definition serve (post : handler) (list_all : Db.t -> response)
           (db : Db.t) (r : request) : option response * Db.t :=
  match r with
  | Submit now b => let (res, db') := post now db b in (Some res, db')
  | ListAll => (Some (list_all db), db)
  | StoreDown => (None, set_up false db)
  | StoreUp => (None, set_up true db)
  end.

Fixpoint run (step : Db.t -> request -> option response * Db.t)
         (db : Db.t) (rs : list request) : list (option response) * Db.t :=
  match rs with
  | [] => ([], db)
  | r :: rs' =>
      let (a, db1) := step db r in
      let (answers, db2) := run step db1 rs' in
      (a :: answers, db2)
  end.

Definition serve3100 :=
  serve Server3100.post_submit Server3100.get_offboarding.

Definition serve3021 :=
  serve Server3021.post_submit Server3021.get_offboarding.

(** The ids of the table grow from row to row. *)
Definition ids_increasing (db : Db.t) : Prop :=
  StronglySorted Z.lt (map Db.id (Db.rows db)).

(** [storable], as a test. *)
Definition storableb (b : Body.t) : bool :=
  Nat.leb (List.length (chars (Body.empName b))) 30
  && Nat.leb (List.length (chars (Body.position b))) 30
  && forallb Db.not_nul (chars (Body.feedback b))
  && forallb Db.not_nul (chars (Body.acknowledgment b))
  && match Body.bonus b with NNull => false | _ => true end.

(** The error answers of the two submit handlers: status and message. *)
Definition error_answers_3100 : list (Z * string) :=
  map (fun r => (400%Z, rule_message r)) rules
  ++ [(409%Z, "Employee ID already exists"%string);
      (500%Z, "Internal server error"%string)].

Definition error_answers_3021 : list (Z * string) :=
  map (fun r => (400%Z, rule_message r)) rules
  ++ [(400%Z, "Employee ID already exists"%string);
      (500%Z, "Internal server error. Please try again later."%string)].


(** An answer that reports a stored record: it has the member [id]. *)
Definition created (a : option response) : bool :=
  match a with
  | Some r => existsb (String.eqb "id") (keys (payload r))
  | None => false
  end.

(** A record with Jane's employee id and a null bonus. *)
Definition null_bonus : Body.t :=
  Body.mk (Body.empName jane) (Body.position jane) (Body.department jane)
          (Body.empId jane) (Body.feedback jane) (Body.finalSalary jane)
          NNull (Body.acknowledgment jane).

(** A second employee. *)
Definition john : Body.t :=
  Body.mk (TString (u "John Smith")) (TString (u "Analyst"))
          (TString (u "Finance")) (TString (u "ATS0456"))
          (TString (u "Thanks for everything")) (NNumber (lit 1000))
          (NNumber (lit 0)) (TString (u "Received")).

(** What one submit request may do to the table: nothing to the rows
    when the answer reports no record, and one row more, under the next
    id and with an employee id not yet in the table, when it does. *)
Definition table_step (db : Db.t) (out : response * Db.t) : Prop :=
  Db.up (snd out) = Db.up db
  /\ ((created (Some (fst out)) = false
       /\ Db.rows (snd out) = Db.rows db
       /\ (Db.next_id db <= Db.next_id (snd out))%Z)
      \/ (created (Some (fst out)) = true
          /\ exists r, Db.rows (snd out) = Db.rows db ++ [r]
                       /\ Db.id r = Db.next_id db
                       /\ Db.next_id (snd out) = (Db.next_id db + 1)%Z
                       /\ Db.taken (Db.employee_id r) (Db.rows db) = false)).

(** The store does not come back during these requests. *)
Definition no_recovery (rs : list request) : bool :=
  forallb (fun r => match r with StoreUp => false | _ => true end) rs.

(** The answer is a refusal of the body or a server error. *)
Definition refusal (a : option response) : Prop :=
  match a with
  | Some res => status res = 400%Z \/ status res = 500%Z
  | None => True
  end.

(** ** Start-up of Backend/server.js

    The module calls [pool.connect], [pool.query(createTableQuery)] and
    [app.listen] one after the other without waiting; the two callbacks
    run later, in an order the program does not fix, and each one ends
    the process when its call has failed. *)

Module Startup3021.

Import Startup.

Definition port : Z := 3021.

(** The callback of [pool.connect]: what it adds to the trace, and
    whether the process is gone. *)
Definition on_connect (w : world) : trace * bool :=
  if connect_ok w 0 then ([Connect true], false)
  else ([Connect false; Exit 1], true).

(** The [catch] of the CREATE TABLE promise. *)
Definition on_create (w : world) : trace * bool :=
  if create_ok w then ([CreateTable true], false)
  else ([CreateTable false; Exit 1], true).

Definition then_ (first second : trace * bool) : trace :=
  fst first ++ (if snd first then [] else fst second).

(** The trace of the module in a world, with the connection settling
    before the statement or after it. *)
Definition main (w : world) (connect_first : bool) : trace :=
  Listen port ::
  (if connect_first then then_ (on_connect w) (on_create w)
   else then_ (on_create w) (on_connect w)).

End Startup3021.

(** The milliseconds a trace spent waiting. *)
Fixpoint waited (tr : Startup.trace) : Z :=
  match tr with
  | [] => 0
  | Startup.Sleep ms :: rest => ms + waited rest
  | _ :: rest => waited rest
  end.

(** * Properties *)

Unset Implicit Arguments.

(** ** Strings and examples *)

Lemma jsstring_eqb_eq (a b : jsstring) : jsstring_eqb a b = true <-> a = b.
Proof.
  revert b; induction a as [|x a IH]; intros [|y b]; simpl;
    try (split; [discriminate | discriminate]); try tauto.
  rewrite andb_true_iff. unfold char16_eqb. rewrite N.eqb_eq, IH.
  split; [intros [-> ->]; reflexivity | intros H; inversion H; auto].
Qed.

Lemma jsstring_eqb_refl (a : jsstring) : jsstring_eqb a a = true.
Proof. apply jsstring_eqb_eq; reflexivity. Qed.

Example name_ok : test re_empName (u "John Smith") = true.
Proof. reflexivity. Qed.

Example name_lower : test re_empName (u "john smith") = false.
Proof. reflexivity. Qed.

Example name_two_spaces : test re_empName (u "John  Smith") = false.
Proof. reflexivity. Qed.

Example position_ok : test re_position (u "senior Engineer") = true.
Proof. reflexivity. Qed.

Example empId_ok : test re_empId (u "ATS0123") = true.
Proof. reflexivity. Qed.

Example empId_zero : test re_empId (u "ATS0000") = false.
Proof. reflexivity. Qed.

Example nonalpha_digits : test re_nonalpha (u "12 34 !?") = true.
Proof. reflexivity. Qed.

Example nonalpha_letter : test re_nonalpha (u "12 a") = false.
Proof. reflexivity. Qed.

Example jane_valid : validation jane = None.
Proof. reflexivity. Qed.

Example jane_3100 :
  fst (Server3100.post_submit 10 empty_db jane)
  = mkResponse 201
      (JObject [("message"%string,
                 JString (u "Offboarding form submitted successfully"));
                ("id"%string, JInt 1)]).
Proof. reflexivity. Qed.

Example jane_twice_3100 :
  let db1 := snd (Server3100.post_submit 10 empty_db jane) in
  Server3100.post_submit 20 db1 jane
  = (mkResponse 409 (error_body "Employee ID already exists"),
     Db.mk true (Db.rows db1) 3).
Proof. reflexivity. Qed.

(** ** The patterns

    A pattern that starts with [^] matches from index 0 or not at all. *)

Lemma no_match_after_start (r : re) (s : jsstring) (n start : nat) :
  existsb (fun i => m (Seq Bos r) accept i (skipn i s)) (seq (S start) n)
  = false.
Proof.
  revert start; induction n as [|n IH]; intros start; simpl.
  - reflexivity.
  - apply IH.
Qed.

Lemma test_anchored (r : re) (s : jsstring) :
  test (Seq Bos r) s = m r accept 0 s.
Proof.
  unfold test.
  change (seq 0 (S (List.length s))) with (0 :: seq 1 (List.length s)).
  cbn [existsb]. rewrite no_match_after_start, orb_false_r.
  reflexivity.
Qed.

Lemma m_Star (a : re) (k : nat -> jsstring -> bool) (i : nat)
      (s : jsstring) :
  m (Star a) k i s = star_loop a k (List.length s) i s.
Proof. reflexivity. Qed.

Lemma class_one (a : ascii) (c : char16) :
  class_mem [One a] c = N.eqb c (code a).
Proof. unfold class_mem; simpl. apply orb_false_r. Qed.

Lemma class_digit (c : char16) : class_mem [Digit] c = is_digit c.
Proof. unfold class_mem; simpl. apply orb_false_r. Qed.

Lemma test_empId (s : jsstring) : test re_empId s = empId_shape s.
Proof.
  unfold re_empId. rewrite test_anchored.
  destruct s as [|c1 [|c2 [|c3 [|c4 [|c5 [|c6 [|c7 [|c8 s]]]]]]]];
    cbn -[class_mem];
    rewrite ?class_one, ?class_digit; cbn -[is_digit N.eqb];
    repeat match goal with
           | |- context [N.eqb ?a ?b] =>
               destruct (N.eqb a b); cbn -[is_digit N.eqb]
           | |- context [is_digit ?a] =>
               destruct (is_digit a); cbn -[is_digit N.eqb]
           end; try reflexivity.
Qed.

(** C5.  The employee-id rule accepts a string exactly when it is the
    prefix ATS0 followed by three decimal digits that are not 000.  So
    ATS0000 is refused, every one of ATS0001 to ATS0999 is accepted, and
    strings of another length or shape (ATS01234, ATS012, ats0123), like
    a missing or null value, are refused. *)
Theorem empId_accepted_iff :
  (forall s : jsstring,
      invalid_empId (TString s) = false <->
      exists d1 d2 d3 : char16,
        s = u "ATS0" ++ [d1; d2; d3]
        /\ is_digit d1 = true /\ is_digit d2 = true /\ is_digit d3 = true
        /\ [d1; d2; d3] <> u "000")
  /\ invalid_empId (TString (u "ATS0000")) = true
  /\ forallb (fun n => negb (invalid_empId (TString (u "ATS0" ++ pad3 n))))
             (seq 1 999) = true
  /\ invalid_empId (TString (u "ATS01234")) = true
  /\ invalid_empId (TString (u "ATS012")) = true
  /\ invalid_empId (TString (u "ats0123")) = true
  /\ invalid_empId TUndefined = true
  /\ invalid_empId TNull = true.
Proof.
  split; [| repeat split; vm_compute; reflexivity].
  intros s. unfold invalid_empId. cbn [ToString].
  rewrite test_empId, orb_false_iff, !negb_false_iff.
  split.
  - intros [_ H].
    destruct s as [|c1 [|c2 [|c3 [|c4 [|c5 [|c6 [|c7 [|c8 s]]]]]]]];
      try discriminate H.
    cbn [empId_shape] in H.
    repeat (apply andb_prop in H; destruct H as [H ?]).
    repeat match goal with
           | E : N.eqb _ _ = true |- _ => apply N.eqb_eq in E; subst
           end.
    exists c5, c6, c7. repeat split; try assumption.
    intros E. inversion E; subst. discriminate.
  - intros (d1 & d2 & d3 & -> & H1 & H2 & H3 & Hne).
    split; [reflexivity|].
    cbn [u list_ascii_of_string map app empId_shape code].
    rewrite H1, H2, H3. cbn.
    destruct (N.eqb_spec d1 48); [|reflexivity].
    destruct (N.eqb_spec d2 48); [|reflexivity].
    destruct (N.eqb_spec d3 48); [|reflexivity].
    subst. exfalso. apply Hne. reflexivity.
Qed.

Ltac split_comparisons :=
  repeat match goal with
         | |- context [N.leb ?a ?b] =>
             destruct (N.leb_spec a b); try (exfalso; lia)
         | |- context [N.eqb ?a ?b] =>
             destruct (N.eqb_spec a b); try (exfalso; lia)
         end.

Lemma letter_not_digit (c : char16) :
  is_letter c = true -> is_digit c = false.
Proof.
  unfold is_letter, is_digit, in_range. intros H.
  destruct (N.leb_spec 48 c), (N.leb_spec c 57); try reflexivity.
  exfalso. revert H. split_comparisons; cbn; discriminate.
Qed.

Lemma letter_not_space (c : char16) :
  is_letter c = true -> is_space c = false.
Proof.
  unfold is_letter, in_range. intros H.
  assert (R : (65 <= c <= 122)%N).
  { revert H. split_comparisons; cbn; intros; try discriminate; lia. }
  clear H. unfold is_space, in_range. split_comparisons; reflexivity.
Qed.

Lemma letter_not_underscore (c : char16) :
  is_letter c = true -> N.eqb c 95 = false.
Proof.
  unfold is_letter, in_range. intros H.
  destruct (N.eqb_spec c 95); [subst; discriminate H | reflexivity].
Qed.

Lemma class_nonalpha (c : char16) :
  class_mem nonalpha_class c = negb (is_letter c).
Proof.
  unfold class_mem, nonalpha_class. cbn [existsb item_mem].
  change (code "0") with 48%N. change (code "9") with 57%N.
  change (code "_") with 95%N. fold (is_digit c). rewrite orb_false_r.
  destruct (is_letter c) eqn:L.
  - rewrite (letter_not_digit c L), (letter_not_space c L),
      (letter_not_underscore c L).
    unfold is_word. fold (is_letter c). rewrite L. reflexivity.
  - unfold is_word. fold (is_letter c). rewrite L. cbn.
    destruct (is_digit c), (is_space c), (N.eqb c 95); reflexivity.
Qed.

Lemma star_class_to_end (cs : list citem) (n i : nat) (s : jsstring) :
  (List.length s <= n)%nat ->
  star_loop (Class cs) (m Eos accept) n i s = forallb (class_mem cs) s.
Proof.
  revert i s; induction n as [|n IH]; intros i [|c s] H; cbn in *;
    try reflexivity; try lia.
  rewrite IH by lia. apply orb_false_r.
Qed.

Lemma test_nonalpha (s : jsstring) :
  test re_nonalpha s
  = negb (Nat.eqb (List.length s) 0)
    && forallb (fun c => negb (is_letter c)) s.
Proof.
  unfold re_nonalpha. rewrite test_anchored. fold nonalpha_class.
  unfold Plus. cbn [m].
  destruct s as [|c s]; [reflexivity|].
  cbn [List.length Nat.eqb negb andb forallb].
  rewrite class_nonalpha. f_equal.
  transitivity (forallb (class_mem nonalpha_class) s).
  - apply star_class_to_end. lia.
  - clear c. induction s as [|x s IH]; cbn [forallb]; [reflexivity|].
    rewrite class_nonalpha, IH. reflexivity.
Qed.

(** A text passes the shape test of feedback and acknowledgment exactly
    when it is not empty, within the limit, and has a letter. *)
Lemma shape_rule (limit : nat) (s : jsstring) :
  negb (truthy (TString s)) || length_gt (TString s) limit
  || test re_nonalpha (ToString (TString s)) = false
  <-> s <> [] /\ (List.length s <= limit)%nat
      /\ exists c, In c s /\ is_letter c = true.
Proof.
  cbn [ToString length_gt]. rewrite test_nonalpha, !orb_false_iff.
  rewrite negb_false_iff, Nat.ltb_ge.
  split.
  - intros [[T L] F]. destruct s as [|c s]; [discriminate T|].
    split; [discriminate|]. split; [exact L|].
    cbn [List.length Nat.eqb negb andb] in F.
    assert (E : existsb is_letter (c :: s) = true).
    { clear -F. induction (c :: s) as [|x l IH]; [discriminate F|].
      cbn in *. destruct (is_letter x); [reflexivity|]. apply IH, F. }
    apply existsb_exists in E. exact E.
  - intros (N & L & c & I & A). destruct s as [|x s]; [contradiction|].
    repeat split; try assumption.
    cbn [List.length Nat.eqb negb andb].
    clear -I A. induction (x :: s) as [|y l IH]; [contradiction|].
    cbn. destruct I as [-> | I].
    + rewrite A. reflexivity.
    + rewrite (IH I). apply andb_false_r.
Qed.

(** C7.  A feedback string is accepted exactly when it is not empty,
    at most 500 code units long and holds at least one letter A-Z or
    a-z; a string made only of digits, white space, underscores and
    other non-word characters is refused.  The acknowledgment obeys the
    same rule with the limit 300.  A missing or null value is refused. *)
Theorem feedback_accepted_iff :
  (forall s : jsstring,
      invalid_feedback (TString s) = false
      <-> s <> [] /\ (List.length s <= 500)%nat
          /\ exists c, In c s /\ is_letter c = true)
  /\ (forall s : jsstring,
      invalid_acknowledgment (TString s) = false
      <-> s <> [] /\ (List.length s <= 300)%nat
          /\ exists c, In c s /\ is_letter c = true)
  /\ invalid_feedback TUndefined = true
  /\ invalid_feedback TNull = true
  /\ invalid_acknowledgment TUndefined = true
  /\ invalid_acknowledgment TNull = true
  /\ invalid_feedback (TString (u "12345 _ !? 67")) = true
  /\ invalid_feedback (TString (u "a")) = false.
Proof.
  split; [intros s; apply shape_rule|].
  split; [intros s; apply shape_rule|].
  repeat split; vm_compute; reflexivity.
Qed.

Lemma range_rule (lo hi : Z) (x : jsnum) :
  isNaN x || js_lt (ToNumber x) (lit lo) || js_gt (ToNumber x) (lit hi)
  = false
  <-> number_between lo hi x.
Proof.
  unfold number_between, isNaN, js_gt, lit.
  destruct (ToNumber x) as [| neg | q]; cbn.
  - split; [discriminate | intros (q & E & _); discriminate E].
  - split; [destruct neg; discriminate|].
    intros (q & E & _); discriminate E.
  - rewrite orb_false_iff, !negb_false_iff, !Qle_bool_iff.
    split.
    + intros [L H]. exists q. auto.
    + intros (q' & E & L & H). injection E as <-. auto.
Qed.


(** ** The validation block returns the first failure *)

Lemma validation_find (b : Body.t) :
  validation b
  = option_map rule_message (find (fun r => rule_fails r b) rules).
Proof.
  unfold validation, rules. cbn [find rule_fails rule_message option_map].
  repeat match goal with
         | |- context [if ?c then _ else _] => destruct c
         end; reflexivity.
Qed.

Lemma reject_3100 (now : Z) (db : Db.t) (b : Body.t) (msg : string) :
  validation b = Some msg ->
  Server3100.post_submit now db b = (mkResponse 400 (error_body msg), db).
Proof. intros H. unfold Server3100.post_submit. rewrite H. reflexivity. Qed.

Lemma reject_3021 (now : Z) (db : Db.t) (b : Body.t) (msg : string) :
  validation b = Some msg ->
  Server3021.post_submit now db b = (mkResponse 400 (error_body msg), db).
Proof. intros H. unfold Server3021.post_submit. rewrite H. reflexivity. Qed.

(** C4.  The validation block answers with the message of the earliest
    failing rule in the fixed order empName, position, department, empId,
    feedback, acknowledgment, finalSalary, bonus, whatever later rules
    fail too; the eight messages are distinct; the result is a function
    of the body alone, and a handler that stops there returns the store
    as it got it. *)
Theorem validation_first_failure (b : Body.t) :
  validation b
  = option_map rule_message (find (fun r => rule_fails r b) rules)
  /\ map rule_field rules
     = [FempName; Fposition; Fdepartment; FempId; Ffeedback; Facknowledgment;
        FfinalSalary; Fbonus]
  /\ NoDup (map rule_message rules)
  /\ forall (now : Z) (db : Db.t),
      match validation b with
      | Some msg =>
          Server3100.post_submit now db b
          = (mkResponse 400 (error_body msg), db)
          /\ Server3021.post_submit now db b
             = (mkResponse 400 (error_body msg), db)
      | None => True
      end.
Proof.
  split; [apply validation_find|].
  split; [reflexivity|].
  split.
  - cbn. repeat constructor; cbn; intuition discriminate.
  - intros now db. destruct (validation b) as [msg|] eqn:E; [|exact I].
    split; [apply reject_3100 | apply reject_3021]; exact E.
Qed.

Example three_faults_first :
  map rule_field (filter (fun r => rule_fails r three_faults) rules)
  = [FempId; Ffeedback; Fbonus]
  /\ validation three_faults = Some "Invalid employee ID"%string.
Proof. split; reflexivity. Qed.

(** C3.  When the body breaks at least one validation rule, both
    servers answer 400 with the message of a rule that the body breaks,
    and the store after the request is the store before it. *)
Theorem invalid_body_rejected (now : Z) (db : Db.t) (b : Body.t) :
  (exists r, In r rules /\ rule_fails r b = true) ->
  exists r, In r rules /\ rule_fails r b = true
    /\ Server3100.post_submit now db b
       = (mkResponse 400 (error_body (rule_message r)), db)
    /\ Server3021.post_submit now db b
       = (mkResponse 400 (error_body (rule_message r)), db).
Proof.
  intros (r0 & I0 & F0).
  pose proof (validation_find b) as V.
  destruct (find (fun r => rule_fails r b) rules) as [r|] eqn:E.
  - apply find_some in E. destruct E as [Ir Fr].
    exists r. cbn in V. repeat split; try assumption.
    + apply reject_3100, V.
    + apply reject_3021, V.
  - exfalso. pose proof (find_none _ _ E r0 I0) as N. cbn in N.
    rewrite F0 in N. discriminate N.
Qed.

Lemma invalid_body_rejected_witness :
  exists r, In r rules /\ rule_fails r negative_bonus = true
    /\ Server3100.post_submit 10 empty_db negative_bonus
       = (mkResponse 400 (error_body (rule_message r)), empty_db)
    /\ Server3021.post_submit 10 empty_db negative_bonus
       = (mkResponse 400 (error_body (rule_message r)), empty_db).
Proof.
  apply (invalid_body_rejected 10 empty_db negative_bonus).
  exists (mkRule Fbonus (fun b => invalid_bonus (Body.bonus b))
                 "Invalid bonus amount").
  split; [cbn; tauto | reflexivity].
Defined.

(** ** What a match consumes *)

Section Consumes.

Variable p : char16 -> bool.

Lemma reaches_here k i s : k i s = true -> reaches p k s.
Proof. intros H. exists [], s, i. auto. Qed.

Lemma reaches_trans k k' s :
  reaches p k' s -> (forall i t, k' i t = true -> reaches p k t) ->
  reaches p k s.
Proof.
  intros (s1 & s2 & i & -> & P1 & K) H.
  destruct (H i s2 K) as (t1 & t2 & j & -> & P2 & K2).
  exists (s1 ++ t1), t2, j. rewrite app_assoc, forallb_app, P1, P2. auto.
Qed.

Lemma m_consumes (r : re) :
  classes_within p r ->
  forall k i s, m r k i s = true -> reaches p k s.
Proof.
  induction r as [| | | cs | a IHa b IHb | a IHa | a _]; cbn [classes_within];
    intros W k i s H.
  - exact (reaches_here _ _ _ H).
  - cbn in H. apply andb_prop in H. exact (reaches_here _ _ _ (proj2 H)).
  - cbn in H. destruct s; [exact (reaches_here _ _ _ H) | discriminate H].
  - cbn [m] in H. destruct s as [|c s]; [discriminate H|].
    apply andb_prop in H. destruct H as [C K].
    exists [c], s, (S i). cbn. rewrite (W c C). auto.
  - destruct W as [Wa Wb]. cbn [m] in H.
    apply (reaches_trans k (m b k)).
    + exact (IHa Wa _ _ _ H).
    + intros j t K. exact (IHb Wb _ _ _ K).
  - rewrite m_Star in H. remember (List.length s) as n eqn:E. clear E.
    revert i s H.
    induction n as [|n IHn]; intros i s H; cbn [star_loop] in H.
    + exact (reaches_here _ _ _ H).
    + apply orb_prop in H. destruct H as [H | H].
      * apply (reaches_trans k (star_loop a k n)).
        -- exact (IHa W _ _ _ H).
        -- intros j t K. exact (IHn j t K).
      * exact (reaches_here _ _ _ H).
  - cbn [m] in H. apply andb_prop in H.
    exact (reaches_here _ _ _ (proj2 H)).
Qed.

(** An anchored pattern that ends in [$] matches only inputs made of
    characters of its classes. *)
Lemma anchored_within (r : re) (s : jsstring) :
  classes_within p r ->
  m r (m Eos accept) 0 s = true -> forallb p s = true.
Proof.
  intros W H.
  destruct (m_consumes r W _ _ _ H) as (s1 & s2 & i & -> & P1 & K).
  cbn in K. destruct s2; [|discriminate K].
  rewrite app_nil_r. exact P1.
Qed.

End Consumes.

Lemma range_not_nul (lo hi : ascii) (c : char16) :
  (0 < code lo)%N -> in_range (code lo) (code hi) c = true ->
  Db.not_nul c = true.
Proof.
  unfold in_range, Db.not_nul. intros L H. apply andb_prop in H.
  destruct H as [H _]. apply N.leb_le in H.
  destruct (N.eqb_spec c 0); [lia | reflexivity].
Qed.

Lemma letters_not_nul (cs : list citem) (c : char16) :
  Forall (fun i => match i with
                   | One a => (0 < code a)%N
                   | Range lo _ => (0 < code lo)%N
                   | _ => False
                   end) cs ->
  class_mem cs c = true -> Db.not_nul c = true.
Proof.
  unfold class_mem. induction 1 as [|i cs Hi _ IH]; cbn [existsb]; intros H.
  - discriminate H.
  - apply orb_prop in H. destruct H as [H | H]; [|exact (IH H)].
    destruct i as [a | lo hi | | |]; try contradiction; cbn in H.
    + unfold Db.not_nul. apply N.eqb_eq in H. subst.
      destruct (N.eqb_spec (code a) 0); [lia | reflexivity].
    + exact (range_not_nul lo hi c Hi H).
Qed.

Lemma empName_not_nul (s : jsstring) :
  test re_empName s = true -> forallb Db.not_nul s = true.
Proof.
  unfold re_empName. rewrite test_anchored. intros H.
  apply (anchored_within Db.not_nul
           (Seq (Class [Range "A" "Z"])
             (Seq (Plus (Class [Range "a" "z"; Range "A" "Z"]))
                (Star (Seq (Class [One " "])
                   (Seq (Class [Range "A" "Z"])
                      (Plus (Class [Range "a" "z"; Range "A" "Z"])))))))).
  - unfold Plus; cbn [classes_within]; repeat split; intros c;
      apply letters_not_nul; repeat constructor.
  - exact H.
Qed.

Lemma position_not_nul (s : jsstring) :
  test re_position s = true -> forallb Db.not_nul s = true.
Proof.
  unfold re_position. rewrite test_anchored. intros H.
  apply (anchored_within Db.not_nul
           (Seq (Plus (Class [Range "A" "Z"; Range "a" "z"]))
                (Star (Seq (Class [One " "])
                   (Plus (Class [Range "A" "Z"; Range "a" "z"])))))).
  - unfold Plus; cbn [classes_within]; repeat split; intros c;
      apply letters_not_nul; repeat constructor.
  - exact H.
Qed.

(** ** What the insert does with a validated body *)

Lemma validation_passes (b : Body.t) :
  validation b = None ->
  invalid_empName (Body.empName b) = false
  /\ invalid_position (Body.position b) = false
  /\ invalid_department (Body.department b) = false
  /\ invalid_empId (Body.empId b) = false
  /\ invalid_feedback (Body.feedback b) = false
  /\ invalid_acknowledgment (Body.acknowledgment b) = false
  /\ invalid_finalSalary (Body.finalSalary b) = false
  /\ invalid_bonus (Body.bonus b) = false.
Proof.
  unfold validation.
  repeat match goal with
         | |- context [if ?c then _ else _] => destruct c
         end; intros H; try discriminate H; repeat split.
Qed.

Lemma truthy_string (x : jstext) :
  negb (truthy x) = false -> exists s, x = TString s.
Proof. destruct x; try discriminate. eauto. Qed.

Lemma not_nul_forallb (s : jsstring) :
  ~ In 0%N s -> forallb Db.not_nul s = true.
Proof.
  induction s as [|c s IH]; cbn; intros H; [reflexivity|].
  unfold Db.not_nul at 1. destruct (N.eqb_spec c 0).
  - exfalso. apply H. left. exact e.
  - apply IH. intros I. apply H. right. exact I.
Qed.

Lemma department_fits (s : jsstring) :
  includes departments (TString s) = true ->
  (List.length s <= 50)%nat /\ forallb Db.not_nul s = true.
Proof.
  cbn [includes departments existsb]. intros H.
  repeat (apply orb_prop in H; destruct H as [H | H]);
    try discriminate H;
    apply jsstring_eqb_eq in H; subst; split;
    solve [cbn; lia | reflexivity].
Qed.

Lemma digit_not_nul (c : char16) : is_digit c = true -> Db.not_nul c = true.
Proof.
  unfold is_digit, in_range, Db.not_nul. intros H. apply andb_prop in H.
  destruct H as [H _]. apply N.leb_le in H.
  destruct (N.eqb_spec c 0); [lia | reflexivity].
Qed.

Lemma empId_fits (s : jsstring) :
  test re_empId s = true ->
  (List.length s <= 7)%nat /\ forallb Db.not_nul s = true.
Proof.
  rewrite test_empId.
  destruct s as [|c1 [|c2 [|c3 [|c4 [|c5 [|c6 [|c7 [|c8 s]]]]]]]];
    try discriminate.
  cbn [empId_shape]. intros H.
  repeat (apply andb_prop in H; destruct H as [H ?]).
  repeat match goal with
         | E : N.eqb _ _ = true |- _ => apply N.eqb_eq in E; subst
         | E : is_digit _ = true |- _ => apply digit_not_nul in E
         end.
  split; [cbn; lia|]. cbn [forallb].
  repeat match goal with E : Db.not_nul _ = true |- _ => rewrite E; clear E end.
  reflexivity.
Qed.

Lemma numeric_fits (lo hi : Z) (x : jsnum) :
  (0 <= lo)%Z -> (hi <= 1000000)%Z -> x <> NNull ->
  number_between lo hi x ->
  exists q, x = NNumber (Fin q)
            /\ Db.numeric_10_2 (Some (Fin q)) = Some (Some (Fin q)).
Proof.
  intros L H N (q & E & Lq & Hq).
  destruct x as [| | n]; cbn in E; try discriminate E; [contradiction|].
  subst n. exists q. split; [reflexivity|].
  cbn [Db.numeric_10_2].
  destruct (Qle_bool (99999999995 # 1000) (Qabs q)) eqn:B; [|reflexivity].
  exfalso. apply Qle_bool_iff in B.
  assert (P : (0 <= q)%Q).
  { apply Qle_trans with (inject_Z lo); [|exact Lq].
    change 0%Q with (inject_Z 0). rewrite <- Zle_Qle. exact L. }
  rewrite (Qabs_pos q P) in B.
  assert (T : (99999999995 # 1000 <= inject_Z 1000000)%Q).
  { apply Qle_trans with q; [exact B|].
    apply Qle_trans with (inject_Z hi); [exact Hq|].
    rewrite <- Zle_Qle. exact H. }
  revert T. unfold Qle. cbn. lia.
Qed.

Lemma insert_validated (now : Z) (db : Db.t) (b : Body.t) :
  Db.up db = true -> validation b = None -> storable b ->
  Db.insert now db (values_of b)
  = if Db.taken (chars (Body.empId b)) (Db.rows db)
    then (Db.Rejected "23505",
          Db.mk (Db.up db) (Db.rows db) (Db.next_id db + 1))
    else (Db.Resolved (Db.next_id db),
          Db.mk (Db.up db) (Db.rows db ++ [row_of (Db.next_id db) now b])
                (Db.next_id db + 1)).
Proof.
  intros U V (Ln & Lp & Zf & Za & Bn).
  destruct (validation_passes b V) as (V1 & V2 & V3 & V4 & V5 & V6 & V7 & V8).
  destruct b as [name pos dep emp fb sal bon ack]. cbn [Body.empName
    Body.position Body.department Body.empId Body.feedback Body.finalSalary
    Body.bonus Body.acknowledgment] in *.
  unfold invalid_empName in V1. unfold invalid_position in V2.
  unfold invalid_department in V3. unfold invalid_empId in V4.
  unfold invalid_feedback in V5. unfold invalid_acknowledgment in V6.
  apply orb_false_elim in V1, V2, V3, V4, V5, V6.
  destruct V1 as [T1 R1], V2 as [T2 R2], V3 as [T3 R3], V4 as [T4 R4].
  destruct V5 as [V5 _], V6 as [V6 _].
  apply orb_false_elim in V5, V6. destruct V5 as [T5 _], V6 as [T6 _].
  destruct (truthy_string _ T1) as [name' ->].
  destruct (truthy_string _ T2) as [pos' ->].
  destruct (truthy_string _ T3) as [dep' ->].
  destruct (truthy_string _ T4) as [emp' ->].
  destruct (truthy_string _ T5) as [fb' ->].
  destruct (truthy_string _ T6) as [ack' ->].
  apply negb_false_iff in R1, R2, R3, R4. cbn [ToString chars] in *.
  apply empName_not_nul in R1. apply position_not_nul in R2.
  apply department_fits in R3. destruct R3 as [Ld Nd].
  apply empId_fits in R4. destruct R4 as [Le Ne].
  apply not_nul_forallb in Zf, Za.
  apply range_rule in V7, V8.
  assert (Sal : sal <> NNull).
  { intros ->. destruct V7 as (q & E & Lq & _). cbn in E.
    injection E as <-. revert Lq. unfold Qle. cbn. lia. }
  destruct (numeric_fits 1000 1000000 sal ltac:(lia) ltac:(lia) Sal V7)
    as (qs & -> & Ns).
  destruct (numeric_fits 0 100000 bon ltac:(lia) ltac:(lia) Bn V8)
    as (qb & -> & Nb).
  unfold Db.insert, values_of, row_of.
  cbn [Db.v_employee_name Db.v_position Db.v_department Db.v_employee_id
       Db.v_feedback Db.v_final_salary Db.v_bonus Db.v_acknowledgment
       text_param number_param Body.empName Body.position Body.department
       Body.empId Body.feedback Body.finalSalary Body.bonus
       Body.acknowledgment chars ToNumber].
  rewrite U. cbn [negb].
  unfold Db.encodable. rewrite R1, R2, Nd, Ne, Zf, Za.
  cbn [andb negb].
  unfold Db.varchar.
  apply Nat.leb_le in Ln, Lp, Ld, Le. rewrite Ln, Lp, Ld, Le.
  rewrite Ns, Nb. reflexivity.
Qed.

(** ** Submitting a record *)

Lemma taken_false (e : jsstring) (l : list Db.row) :
  Db.taken e l = false -> ~ In e (map Db.employee_id l).
Proof.
  unfold Db.taken. induction l as [|r l IH]; cbn; intros H; [tauto|].
  apply orb_false_elim in H. destruct H as [H1 H2].
  intros [E | I]; [|exact (IH H2 I)].
  subst e. rewrite jsstring_eqb_refl in H1. discriminate H1.
Qed.

Lemma unique_row (e : jsstring) (l : list Db.row) :
  NoDup (map Db.employee_id l) -> Db.taken e l = true ->
  List.length (filter (fun r => jsstring_eqb (Db.employee_id r) e) l) = 1%nat.
Proof.
  unfold Db.taken. induction l as [|r l IH]; cbn; intros N H;
    [discriminate H|].
  inversion N as [|x xs Nx Nl]; subst.
  destruct (jsstring_eqb (Db.employee_id r) e) eqn:E.
  - apply jsstring_eqb_eq in E. subst e. cbn. f_equal.
    destruct (filter _ l) as [|y ys] eqn:F; [reflexivity|].
    exfalso. apply Nx.
    assert (Iy : In y (filter (fun r0 => jsstring_eqb (Db.employee_id r0)
                                           (Db.employee_id r)) l)).
    { rewrite F. left. reflexivity. }
    apply filter_In in Iy. destruct Iy as [Iy Ey].
    apply jsstring_eqb_eq in Ey. rewrite <- Ey. apply in_map. exact Iy.
  - apply IH; assumption.
Qed.

Lemma insert_keeps_consistent (db : Db.t) (r : Db.row) :
  consistent db -> Db.id r = Db.next_id db ->
  Db.taken (Db.employee_id r) (Db.rows db) = false ->
  consistent (Db.mk (Db.up db) (Db.rows db ++ [r]) (Db.next_id db + 1)).
Proof.
  intros [N F] I T. unfold consistent. cbn [Db.rows Db.next_id]. split.
  - rewrite map_app. cbn [map].
    apply NoDup_app; [exact N | repeat constructor; intros [] |].
    intros x Ix [<- | []]. exact (taken_false _ _ T Ix).
  - apply Forall_app. split.
    + revert F. apply Forall_impl. intros a. lia.
    + repeat constructor. lia.
Qed.

(** C1, amended.  With the store up and a body that passes validation
    and that the store can hold (name and position of at most 30
    characters, no U+0000 in feedback and acknowledgment, a bonus that is
    not null), an employee id that is already in the table is answered
    with {error: "Employee ID already exists"}, by the server on port
    3100 with status 409 and by Backend/server.js with status 400; the
    table is unchanged and holds exactly one row for that id. *)
Theorem duplicate_rejected (now : Z) (db : Db.t) (b : Body.t) :
  consistent db -> Db.up db = true -> validation b = None -> storable b ->
  Db.taken (chars (Body.empId b)) (Db.rows db) = true ->
  let db' := Db.mk (Db.up db) (Db.rows db) (Db.next_id db + 1) in
  Server3100.post_submit now db b
  = (mkResponse 409 (error_body "Employee ID already exists"), db')
  /\ Server3021.post_submit now db b
     = (mkResponse 400 (error_body "Employee ID already exists"), db')
  /\ List.length (rows_of (chars (Body.empId b)) db') = 1%nat.
Proof.
  intros C U V S T db'.
  pose proof (insert_validated now db b U V S) as I. rewrite T in I.
  unfold Server3100.post_submit, Server3021.post_submit.
  rewrite V, I. cbn [String.eqb]. repeat split.
  apply unique_row; [exact (proj1 C) | exact T].
Qed.

Lemma duplicate_rejected_witness :
  Server3100.post_submit 20 jane_stored jane
  = (mkResponse 409 (error_body "Employee ID already exists"),
     Db.mk true [row_of 1 10 jane] 3)
  /\ Server3021.post_submit 20 jane_stored jane
     = (mkResponse 400 (error_body "Employee ID already exists"),
        Db.mk true [row_of 1 10 jane] 3)
  /\ List.length (rows_of (u "ATS0123") (Db.mk true [row_of 1 10 jane] 3))
     = 1%nat.
Proof.
  apply (duplicate_rejected 20 jane_stored jane).
  - split; cbn.
    + repeat constructor. intros [].
    + repeat constructor.
  - reflexivity.
  - reflexivity.
  - repeat split; cbn; try lia; try discriminate;
      intros H; repeat (destruct H as [H | H]; [discriminate H|]); exact H.
  - reflexivity.
Defined.

(** Jane's record sent again gets 400 from Backend/server.js, and a
    record with her id and a name of 31 letters gets 500 from the server
    on port 3100. *)
Lemma duplicate_not_always_409 :
  ~ duplicate_gets_409 Server3021.post_submit
  /\ ~ duplicate_gets_409 Server3100.post_submit.
Proof.
  assert (C : consistent jane_stored).
  { split; cbn; repeat constructor. intros []. }
  split; intros H.
  - destruct (H 20%Z jane_stored jane C eq_refl eq_refl eq_refl) as [R _].
    discriminate R.
  - destruct (H 20%Z jane_stored long_name C eq_refl eq_refl eq_refl) as [R _].
    discriminate R.
Qed.

(** C2, amended.  With the store up and a body that passes validation
    and that the store can hold (name and position of at most 30
    characters, no U+0000 in feedback and acknowledgment, a bonus that is
    not null), an employee id that is not yet in the table is answered
    with a message and the id drawn from the sequence, by the server on
    port 3100 with status 201 and by Backend/server.js with status 200;
    the id is greater than every id in the table, and the new row is
    appended. *)
Theorem new_record_accepted (now : Z) (db : Db.t) (b : Body.t) :
  consistent db -> Db.up db = true -> validation b = None -> storable b ->
  Db.taken (chars (Body.empId b)) (Db.rows db) = false ->
  let id := Db.next_id db in
  let db' := Db.mk (Db.up db) (Db.rows db ++ [row_of id now b]) (id + 1) in
  Server3100.post_submit now db b = (mkResponse 201 (submitted id), db')
  /\ Server3021.post_submit now db b = (mkResponse 200 (submitted id), db')
  /\ Forall (fun r => (Db.id r < id)%Z) (Db.rows db)
  /\ consistent db'.
Proof.
  intros C U V S T id db'.
  pose proof (insert_validated now db b U V S) as I. rewrite T in I.
  unfold Server3100.post_submit, Server3021.post_submit.
  rewrite V, I. repeat split.
  - exact (proj2 C).
  - apply (insert_keeps_consistent db (row_of id now b) C); [reflexivity|].
    exact T.
  - apply (insert_keeps_consistent db (row_of id now b) C); [reflexivity|].
    exact T.
Qed.

Lemma new_record_accepted_witness :
  Server3100.post_submit 10 empty_db jane
  = (mkResponse 201 (submitted 1), jane_stored)
  /\ Server3021.post_submit 10 empty_db jane
     = (mkResponse 200 (submitted 1), jane_stored)
  /\ Forall (fun r => (Db.id r < 1)%Z) (Db.rows empty_db)
  /\ consistent jane_stored.
Proof.
  apply (new_record_accepted 10 empty_db jane).
  - split; cbn; constructor.
  - reflexivity.
  - reflexivity.
  - repeat split; cbn; try lia; try discriminate;
      intros H; repeat (destruct H as [H | H]; [discriminate H|]); exact H.
  - reflexivity.
Defined.

(** Jane's record on an empty table gets 200 from Backend/server.js,
    and the record with a name of 31 letters gets 500 from the server on
    port 3100. *)
Lemma new_record_not_always_201 :
  ~ new_gets_201 Server3021.post_submit
  /\ ~ new_gets_201 Server3100.post_submit.
Proof.
  assert (C : consistent empty_db) by (split; cbn; constructor).
  split; intros H.
  - destruct (H 10%Z empty_db jane C eq_refl eq_refl eq_refl) as [id R].
    discriminate R.
  - destruct (H 10%Z empty_db long_name C eq_refl eq_refl eq_refl) as [id R].
    discriminate R.
Qed.

(** ** Listing the records *)

Lemma insert_desc_perm (r : Db.row) (l : list Db.row) :
  Permutation (Db.insert_desc r l) (r :: l).
Proof.
  induction l as [|x l IH]; cbn; [reflexivity|].
  destruct (Z.leb (Db.created_at x) (Db.created_at r)); [reflexivity|].
  rewrite IH. apply perm_swap.
Qed.

Lemma order_by_perm (l : list Db.row) :
  Permutation (Db.order_by_created_at_desc l) l.
Proof.
  induction l as [|r l IH]; cbn; [constructor|].
  rewrite insert_desc_perm. constructor. exact IH.
Qed.

Lemma insert_desc_sorted (r : Db.row) (l : list Db.row) :
  StronglySorted newer_or_same l ->
  StronglySorted newer_or_same (Db.insert_desc r l).
Proof.
  induction 1 as [|x l S IH F]; cbn.
  - repeat constructor.
  - destruct (Z.leb_spec (Db.created_at x) (Db.created_at r)) as [L | L].
    + constructor; [constructor; assumption|].
      constructor; [exact L|].
      revert F. apply Forall_impl. unfold newer_or_same. intros a. lia.
    + constructor; [exact IH|].
      apply Forall_forall. intros y Iy.
      apply (Permutation_in y (insert_desc_perm r l)) in Iy.
      destruct Iy as [<- | Iy]; [unfold newer_or_same; lia|].
      rewrite Forall_forall in F. exact (F y Iy).
Qed.

Lemma order_by_sorted (l : list Db.row) :
  StronglySorted newer_or_same (Db.order_by_created_at_desc l).
Proof.
  induction l as [|r l IH]; cbn; [constructor|].
  apply insert_desc_sorted, IH.
Qed.

Lemma keys_3100 (l : list Db.row) :
  Forall (fun j => keys j = the_keys) (map Server3100.project l).
Proof. induction l; cbn [map]; constructor; [reflexivity | assumption]. Qed.

Lemma keys_3021 (l : list Db.row) :
  Forall (fun j => keys j = removelast the_keys) (map Server3021.project l).
Proof. induction l; cbn [map]; constructor; [reflexivity | assumption]. Qed.

(** C8, amended.  With the store up, both list handlers answer 200 with
    an array of one object per row, ordered by creation time, newest
    first; on an empty table the array is empty.  On the server on port
    3100 every object has exactly the keys empName, position, department,
    empId, feedback, finalSalary, bonus, acknowledgment, createdAt; on
    Backend/server.js it has these keys without createdAt. *)
Theorem list_newest_first (db : Db.t) :
  Db.up db = true ->
  exists ordered : list Db.row,
    Permutation ordered (Db.rows db)
    /\ StronglySorted newer_or_same ordered
    /\ Server3100.get_offboarding db
       = mkResponse 200 (JArray (map Server3100.project ordered))
    /\ Forall (fun j => keys j = the_keys) (map Server3100.project ordered)
    /\ Server3021.get_offboarding db
       = mkResponse 200 (JArray (map Server3021.project ordered))
    /\ Forall (fun j => keys j = removelast the_keys)
              (map Server3021.project ordered)
    /\ Server3100.get_offboarding (Db.mk true [] (Db.next_id db))
       = mkResponse 200 (JArray [])
    /\ Server3021.get_offboarding (Db.mk true [] (Db.next_id db))
       = mkResponse 200 (JArray []).
Proof.
  intros U. exists (Db.order_by_created_at_desc (Db.rows db)).
  split; [apply order_by_perm|].
  split; [apply order_by_sorted|].
  unfold Server3100.get_offboarding, Server3021.get_offboarding, select.
  rewrite U. cbn [Db.up].
  repeat split; try reflexivity; [apply keys_3100 | apply keys_3021].
Qed.

Lemma list_newest_first_witness :
  exists ordered : list Db.row,
    Permutation ordered (Db.rows two_rows)
    /\ StronglySorted newer_or_same ordered
    /\ Server3100.get_offboarding two_rows
       = mkResponse 200 (JArray (map Server3100.project ordered))
    /\ Forall (fun j => keys j = the_keys) (map Server3100.project ordered)
    /\ Server3021.get_offboarding two_rows
       = mkResponse 200 (JArray (map Server3021.project ordered))
    /\ Forall (fun j => keys j = removelast the_keys)
              (map Server3021.project ordered)
    /\ Server3100.get_offboarding (Db.mk true [] 3)
       = mkResponse 200 (JArray [])
    /\ Server3021.get_offboarding (Db.mk true [] 3)
       = mkResponse 200 (JArray []).
Proof. apply (list_newest_first two_rows). reflexivity. Defined.

Example two_rows_listed :
  Server3100.get_offboarding two_rows
  = mkResponse 200
      (JArray [Server3100.project (row_of 2 20 long_name);
               Server3100.project (row_of 1 10 jane)]).
Proof. reflexivity. Qed.

(** The one element Backend/server.js lists for Jane's row has no key
    createdAt. *)
Lemma list_3021_lacks_createdAt :
  ~ lists_with_keys Server3021.get_offboarding the_keys.
Proof.
  intros H. destruct (H jane_stored eq_refl) as (o & e & _ & _ & R & _ & K).
  cbn in R. injection R as <-.
  inversion K as [|j l Kj _]. discriminate Kj.
Qed.

(** ** The health check *)

(** C9, amended.  The health check always answers 200, and its
    [database] member is "connected" exactly when the pool holds at
    least one client and "disconnected" exactly when it holds none; the
    store is not asked. *)
Theorem health_reports_pool (now : Z) (totalCount : nat) :
  status (Server3100.get_health now totalCount) = 200%Z
  /\ (database_of (Server3100.get_health now totalCount)
      = Some (JString (u "connected")) <-> (0 < totalCount)%nat)
  /\ (database_of (Server3100.get_health now totalCount)
      = Some (JString (u "disconnected")) <-> totalCount = 0%nat).
Proof.
  split; [reflexivity|].
  unfold database_of, Server3100.get_health. cbn [payload get String.eqb].
  cbn. destruct totalCount as [|n]; cbn.
  - split; split; intros H; try discriminate H; try reflexivity; lia.
  - split; split; intros H; try discriminate H; try reflexivity; lia.
Qed.

(** The pool of a server that answered a request and then stayed idle
    for [idleTimeoutMillis] holds no client, with the store up. *)
Lemma quiet_pool_reached : Pool.steps Pool.fresh (Pool.mk true 0 0).
Proof.
  apply Pool.steps_cons with (Pool.mk true 1 0).
  { apply Pool.Open. unfold Pool.max. lia. }
  apply Pool.steps_cons with (Pool.mk true 1 1).
  { apply Pool.Release. lia. }
  apply Pool.steps_cons with (Pool.mk true 0 0).
  { apply Pool.IdleTimeout. }
  apply Pool.steps_refl.
Qed.

(** The pool still holds its client when the store has just gone down. *)
Lemma stale_pool_reached : Pool.steps Pool.fresh (Pool.mk false 1 1).
Proof.
  apply Pool.steps_cons with (Pool.mk true 1 0).
  { apply Pool.Open. unfold Pool.max. lia. }
  apply Pool.steps_cons with (Pool.mk true 1 1).
  { apply Pool.Release. lia. }
  apply Pool.steps_cons with (Pool.mk false 1 1).
  { apply Pool.Outage. }
  apply Pool.steps_refl.
Qed.

(** With the store up and no client in the pool, the health check says
    "disconnected". *)
Lemma health_not_reachability :
  ~ health_reflects_store Server3100.get_health.
Proof.
  intros H.
  destruct (H 0%Z (Pool.mk true 0 0) quiet_pool_reached) as [[_ C] _].
  specialize (C eq_refl). discriminate C.
Qed.

Example health_stale :
  database_of (Server3100.get_health 0 (Pool.totalCount (Pool.mk false 1 1)))
  = Some (JString (u "connected")).
Proof. reflexivity. Qed.

(** ** Start-up *)

Import Startup.

Example main_third_time :
  main third_time
  = [Connect false; Sleep 5000; Connect false; Sleep 5000; Connect true;
     CreateTable true; Listen 3100].
Proof. reflexivity. Qed.

Example main_never :
  main never
  = [Connect false; Sleep 5000; Connect false; Sleep 5000;
     Connect false; Sleep 5000; Connect false; Sleep 5000;
     Connect false; Exit 1].
Proof. reflexivity. Qed.

Lemma connects_app (a b : trace) :
  connects (a ++ b) = (connects a + connects b)%nat.
Proof. unfold connects. rewrite filter_app, length_app. reflexivity. Qed.

Lemma connects_failed (delay : Z) (k : nat) :
  connects (failed_with delay k) = k.
Proof.
  induction k as [|k IH]; [reflexivity|].
  unfold failed_with in *. cbn [repeat List.concat].
  rewrite connects_app, IH. reflexivity.
Qed.

Lemma concat_repeat_snoc (x : trace) (k : nat) :
  List.concat (repeat x (S k)) = List.concat (repeat x k) ++ x.
Proof.
  induction k as [|k IH].
  - cbn. apply app_nil_r.
  - change (List.concat (repeat x (S (S k))))
      with (x ++ List.concat (repeat x (S k))).
    rewrite IH at 1. rewrite app_assoc. reflexivity.
Qed.

Lemma failed_snoc (delay : Z) (k : nat) :
  failed_with delay (S k)
  = failed_with delay k ++ [Connect false; Sleep delay].
Proof. apply concat_repeat_snoc. Qed.

(** The loop, entered after [attempts] failed attempts: either some
    later attempt below the bound is the first to succeed, or all fail
    and the last error is thrown. *)
Lemma retry_spec (w : world) (maxAttempts : nat) (delay : Z) (d : nat) :
  forall attempts : nat,
    (maxAttempts - attempts = S d)%nat ->
    (forall j, (j < attempts)%nat -> connect_ok w j = false) ->
    (exists k, (attempts <= k < maxAttempts)%nat
               /\ (forall j, (j < k)%nat -> connect_ok w j = false)
               /\ connect_ok w k = true
               /\ retry w maxAttempts delay attempts
                        (failed_with delay attempts)
                  = (failed_with delay k ++ [Connect true], ReturnTrue))
    \/ ((forall j, (j < maxAttempts)%nat -> connect_ok w j = false)
        /\ retry w maxAttempts delay attempts (failed_with delay attempts)
           = (failed_with delay (maxAttempts - 1) ++ [Connect false], Throw)).
Proof.
  induction d as [|d IH]; intros attempts D F; simp retry;
    destruct (lt_dec attempts maxAttempts) as [L | L]; try lia; cbn;
    rewrite connects_failed;
    destruct (connect_ok w attempts) eqn:C; cbn.
  - left. exists attempts. repeat split; try lia; assumption.
  - destruct (lt_dec (S attempts) maxAttempts) as [L' | L']; try lia; cbn.
    right. split.
    + intros j J. destruct (Nat.eq_dec j attempts) as [-> | N];
        [exact C | apply F; lia].
    + replace (maxAttempts - 1)%nat with attempts by lia. reflexivity.
  - left. exists attempts. repeat split; try lia; assumption.
  - destruct (lt_dec (S attempts) maxAttempts) as [L' | L']; try lia; cbn.
    rewrite <- failed_snoc.
    assert (F' : forall j, (j < S attempts)%nat -> connect_ok w j = false).
    { intros j J. destruct (Nat.eq_dec j attempts) as [-> | N];
        [exact C | apply F; lia]. }
    destruct (IH (S attempts) ltac:(lia) F')
      as [(k & K & Fk & Ck & R) | [Fa R]].
    + left. exists k. repeat split; try lia; assumption.
    + right. split; assumption.
Qed.

Lemma main_cases (w : world) :
  exists k : nat,
    (k <= 4)%nat
    /\ (forall j, (j < k)%nat -> connect_ok w j = false)
    /\ ((connect_ok w k = true /\ create_ok w = true
         /\ main w = failed k ++ [Connect true; CreateTable true; Listen 3100])
        \/ (connect_ok w k = true /\ create_ok w = false
            /\ main w = failed k ++ [Connect true; CreateTable false; Exit 1])
        \/ (k = 4%nat /\ connect_ok w 4 = false
            /\ main w = failed 4 ++ [Connect false; Exit 1])).
Proof.
  unfold main, initializeDatabase, connectWithRetry.
  destruct (retry_spec w 5 5000 4 0 eq_refl ltac:(intros j J; lia))
    as [(k & K & F & C & R) | [F R]];
    change (failed_with 5000 0) with (@nil event) in R; rewrite R.
  - exists k. split; [lia|]. split; [exact F|].
    destruct (create_ok w) eqn:T.
    + left. repeat split; try assumption.
      unfold failed. rewrite <- !app_assoc. reflexivity.
    + right. left. repeat split; try assumption.
      unfold failed. rewrite <- !app_assoc. reflexivity.
  - exists 4%nat. split; [lia|]. split; [intros j J; apply F; lia|].
    right. right. split; [reflexivity|]. split; [apply F; lia|].
    unfold failed. rewrite <- !app_assoc. reflexivity.
Qed.

Lemma no_listen_in_failed (k : nat) (p : Z) : ~ In (Listen p) (failed k).
Proof.
  unfold failed, failed_with. induction k as [|k IH]; cbn; [tauto|].
  intros [H | [H | H]]; try discriminate H. exact (IH H).
Qed.

(** C10.  Start-up calls [pool.connect] at most 5 times, with a wait
    of 5000 ms after each failed attempt but the last.  The trace is one
    of three: after some failed attempts a successful one, the table is
    created and the server listens on port 3100; or the creation fails
    and the process exits with code 1; or all five attempts fail and the
    process exits with code 1.  The server listens exactly when one of
    the first five attempts succeeds and the table is created, and when
    all five fail the trace ends in the exit, without listening. *)
Theorem startup_bounded (w : world) :
  (connects (main w) <= 5)%nat
  /\ (exists k : nat,
        (k <= 4)%nat
        /\ (forall j, (j < k)%nat -> connect_ok w j = false)
        /\ ((connect_ok w k = true /\ create_ok w = true
             /\ main w
                = failed k ++ [Connect true; CreateTable true; Listen 3100])
            \/ (connect_ok w k = true /\ create_ok w = false
                /\ main w
                   = failed k ++ [Connect true; CreateTable false; Exit 1])
            \/ (k = 4%nat /\ connect_ok w 4 = false
                /\ main w = failed 4 ++ [Connect false; Exit 1])))
  /\ (In (Listen 3100) (main w)
      <-> (exists k, (k < 5)%nat /\ connect_ok w k = true)
          /\ create_ok w = true)
  /\ ((forall k, (k < 5)%nat -> connect_ok w k = false)
      <-> main w = failed 4 ++ [Connect false; Exit 1]).
Proof.
  pose proof (main_cases w) as M.
  split; [|split; [exact M|split]];
    destruct M as (k & K & F & [(C & T & R) | [(C & T & R) | (E & C & R)]]);
    rewrite R.
  - rewrite connects_app. unfold failed. rewrite connects_failed. cbn. lia.
  - rewrite connects_app. unfold failed. rewrite connects_failed. cbn. lia.
  - rewrite connects_app. unfold failed. rewrite connects_failed. cbn. lia.
  - split.
    + intros _. split; [exists k; split; [lia | exact C] | exact T].
    + intros _. apply in_or_app. right. cbn. tauto.
  - split.
    + intros I. apply in_app_or in I. destruct I as [I | I].
      * destruct (no_listen_in_failed k _ I).
      * cbn in I. repeat (destruct I as [I | I]; [discriminate I|]).
        destruct I.
    + intros [_ T']. rewrite T in T'. discriminate T'.
  - split.
    + intros I. apply in_app_or in I. destruct I as [I | I].
      * destruct (no_listen_in_failed 4 _ I).
      * cbn in I. repeat (destruct I as [I | I]; [discriminate I|]).
        destruct I.
    + intros [(j & J & Cj) _]. subst k.
      assert (j = 4%nat \/ (j < 4)%nat) as [-> | J'] by lia.
      * rewrite C in Cj. discriminate Cj.
      * rewrite (F j J') in Cj. discriminate Cj.
  - split.
    + intros A. rewrite (A k ltac:(lia)) in C. discriminate C.
    + intros E. exfalso.
      assert (L : In (Listen 3100) (failed 4 ++ [Connect false; Exit 1])).
      { rewrite <- E. apply in_or_app. right. cbn. tauto. }
      apply in_app_or in L. destruct L as [L | L].
      * exact (no_listen_in_failed 4 _ L).
      * cbn in L. repeat (destruct L as [L | L]; [discriminate L|]).
        destruct L.
  - split.
    + intros A. rewrite (A k ltac:(lia)) in C. discriminate C.
    + intros E. exfalso.
      assert (L : In (CreateTable false)
                     (failed 4 ++ [Connect false; Exit 1])).
      { rewrite <- E. apply in_or_app. right. cbn. tauto. }
      cbn in L. repeat (destruct L as [L | L]; [discriminate L|]).
      destruct L.
  - split; [reflexivity|].
    intros _ j J. subst k.
    assert (j = 4%nat \/ (j < 4)%nat) as [-> | J'] by lia;
      [exact C | exact (F j J')].
Qed.

(** * Further properties *)

(** ** The matcher decides the language of a plain pattern *)

Lemma blind_star_loop (a : re) (k : nat -> jsstring -> bool) :
  (forall k', blind k' -> blind (m a k')) ->
  blind k -> forall n, blind (star_loop a k n).
Proof.
  intros Ba Bk n. induction n as [|n IH]; intros i j s; cbn [star_loop].
  - apply Bk.
  - rewrite (Ba _ IH i j s), (Bk i j s). reflexivity.
Qed.

Lemma plain_blind (r : re) :
  plain r -> forall k, blind k -> blind (m r k).
Proof.
  induction r as [| | | cs | a IHa b IHb | a IHa | a _]; cbn [plain];
    intros P k B i j s; try contradiction.
  - cbn [m]. apply B.
  - cbn [m]. destruct s as [|c s]; [reflexivity|].
    rewrite (B (S i) (S j) s). reflexivity.
  - destruct P as [Pa Pb]. cbn [m]. apply (IHa Pa). apply (IHb Pb), B.
  - destruct P as [Pa _]. rewrite !m_Star.
    apply blind_star_loop; [exact (IHa Pa) | exact B].
Qed.

Lemma m_lang (r : re) :
  plain r ->
  forall k, blind k ->
  forall i s,
    m r k i s = true
    <-> exists w rest, lang r w /\ s = w ++ rest /\ k 0%nat rest = true.
Proof.
  induction r as [| | | cs | a IHa b IHb | a IHa | a _]; cbn [plain];
    intros P k B i s; try contradiction.
  - cbn [m lang]. rewrite (B i 0%nat s). split.
    + intros H. exists [], s. auto.
    + intros (w & rest & -> & -> & H). exact H.
  - cbn [m lang]. destruct s as [|c s].
    + split; [discriminate|].
      intros (w & rest & (c & -> & _) & E & _). discriminate E.
    + rewrite andb_true_iff, (B (S i) 0%nat s). split.
      * intros [C K]. exists [c], s. split; [exists c; auto | auto].
      * intros (w & rest & (c' & -> & C) & E & K).
        injection E as -> ->. auto.
  - destruct P as [Pa Pb]. cbn [m lang].
    rewrite (IHa Pa (m b k) (plain_blind b Pb k B) i s). split.
    + intros (w1 & rest1 & L1 & -> & H).
      apply (IHb Pb k B) in H. destruct H as (w2 & rest & L2 & -> & K).
      exists (w1 ++ w2), rest. rewrite <- app_assoc.
      split; [exists w1, w2; auto | auto].
    + intros (w & rest & (w1 & w2 & -> & L1 & L2) & -> & K).
      exists w1, (w2 ++ rest). rewrite <- app_assoc.
      split; [exact L1|]. split; [reflexivity|].
      apply (IHb Pb k B). exists w2, rest. auto.
  - destruct P as [Pa Ne]. rewrite m_Star. cbn [lang].
    assert (G : forall n i s, (List.length s <= n)%nat ->
      star_loop a k n i s = true
      <-> exists w rest,
          (exists ws, Forall (lang a) ws /\ w = List.concat ws)
          /\ s = w ++ rest /\ k 0%nat rest = true).
    { clear i s. induction n as [|n IHn]; intros i s Ls; cbn [star_loop].
      - destruct s; [|cbn in Ls; lia]. rewrite (B i 0%nat []). split.
        + intros K. exists [], []. split; [exists []; auto | auto].
        + intros (w & rest & _ & E & K).
          symmetry in E. apply app_eq_nil in E. destruct E as [_ ->].
          exact K.
      - rewrite orb_true_iff, (B i 0%nat s).
        rewrite (IHa Pa (star_loop a k n)
                     (blind_star_loop a k (plain_blind a Pa) B n) i s).
        split.
        + intros [(w1 & rest1 & L1 & -> & H) | K].
          * apply IHn in H.
            -- destruct H as (w & rest & (ws & F & ->) & -> & K).
               exists (w1 ++ List.concat ws), rest. rewrite <- app_assoc.
               split; [exists (w1 :: ws); auto | auto].
            -- pose proof (Ne w1 L1) as N. rewrite length_app in Ls.
               destruct w1; [contradiction | cbn in Ls; lia].
          * exists [], s. split; [exists []; auto | auto].
        + intros (w & rest & (ws & F & ->) & -> & K).
          destruct ws as [|w1 ws]; [right; exact K|].
          left. inversion F as [|x l L1 F']; subst.
          exists w1, (List.concat ws ++ rest). cbn [List.concat].
          rewrite <- app_assoc. split; [exact L1|]. split; [reflexivity|].
          apply IHn.
          * pose proof (Ne w1 L1) as N. cbn [List.concat] in Ls.
            rewrite <- app_assoc, length_app in Ls.
            destruct w1; [contradiction | cbn in Ls; lia].
          * exists (List.concat ws), rest.
            split; [exists ws; auto | auto]. }
    apply G. lia.
Qed.

(** A plain pattern between [^] and [$] accepts its language. *)
Lemma anchored_lang (r : re) (s : jsstring) :
  plain r -> (m r (m Eos accept) 0 s = true <-> lang r s).
Proof.
  intros P.
  assert (B : blind (m Eos accept)) by (intros i j t; reflexivity).
  rewrite (m_lang r P _ B). split.
  - intros (w & rest & L & -> & K). cbn in K.
    destruct rest; [|discriminate K]. rewrite app_nil_r. exact L.
  - intros L. exists s, []. rewrite app_nil_r. auto.
Qed.

(** ** The name and position rules *)

Lemma class_letters (c : char16) :
  class_mem [Range "A" "Z"; Range "a" "z"] c = is_letter c.
Proof.
  unfold class_mem, is_letter. cbn [existsb item_mem].
  rewrite orb_false_r. reflexivity.
Qed.

Lemma class_letters' (c : char16) :
  class_mem [Range "a" "z"; Range "A" "Z"] c = is_letter c.
Proof.
  unfold class_mem, is_letter. cbn [existsb item_mem].
  rewrite orb_false_r. apply orb_comm.
Qed.

Lemma class_upper (c : char16) : class_mem [Range "A" "Z"] c = is_upper c.
Proof.
  unfold class_mem, is_upper. cbn [existsb item_mem]. apply orb_false_r.
Qed.

Lemma lang_star_class (cs : list citem) (w : jsstring) :
  lang (Star (Class cs)) w <-> forallb (class_mem cs) w = true.
Proof.
  cbn [lang]. split.
  - intros (ws & F & ->). induction F as [|x l (c & -> & C) _ IH];
      [reflexivity|].
    cbn. rewrite C. exact IH.
  - intros H. exists (map (fun c => [c]) w). split.
    + induction w as [|c w IH]; cbn [map]; constructor.
      * cbn in H. apply andb_prop in H. exists c. tauto.
      * apply IH. cbn in H. apply andb_prop in H. tauto.
    + clear H. induction w as [|c w IH]; [reflexivity|].
      cbn. f_equal. exact IH.
Qed.

Lemma lang_plus_class (cs : list citem) (w : jsstring) :
  lang (Plus (Class cs)) w <-> w <> [] /\ forallb (class_mem cs) w = true.
Proof.
  unfold Plus. change (lang (Seq (Class cs) (Star (Class cs))) w)
    with (exists w1 w2, w = w1 ++ w2 /\ lang (Class cs) w1
                        /\ lang (Star (Class cs)) w2).
  split.
  - intros (w1 & w2 & -> & (c & -> & C) & S). apply lang_star_class in S.
    split; [discriminate|]. cbn. rewrite C. exact S.
  - intros [N F]. destruct w as [|c w]; [contradiction|].
    cbn in F. apply andb_prop in F. destruct F as [C F].
    exists [c], w. split; [reflexivity|].
    split; [exists c; auto | apply lang_star_class, F].
Qed.

Lemma plain_plus_class (cs : list citem) : plain (Plus (Class cs)).
Proof.
  cbn. repeat split. intros w (c & -> & _). discriminate.
Qed.

Lemma same_forallb (f g : char16 -> bool) (w : jsstring) :
  (forall c, f c = g c) -> forallb f w = forallb g w.
Proof.
  intros E. induction w as [|c w IH]; [reflexivity|].
  cbn. rewrite E, IH. reflexivity.
Qed.

Lemma lang_letters (w : jsstring) : lang re_letters w <-> letters_word w.
Proof.
  unfold re_letters, letters_word. rewrite lang_plus_class.
  rewrite (same_forallb _ _ w class_letters). reflexivity.
Qed.

Lemma lang_capitalised (w : jsstring) :
  lang re_capitalised w <-> capitalised w.
Proof.
  unfold re_capitalised, capitalised.
  change (lang (Seq ?a ?b) w)
    with (exists w1 w2, w = w1 ++ w2 /\ lang a w1 /\ lang b w2).
  split.
  - intros (w1 & w2 & -> & (c & -> & C) & L).
    apply lang_plus_class in L. destruct L as [N F].
    rewrite (same_forallb _ _ w2 class_letters') in F.
    rewrite class_upper in C. exists c, w2. auto.
  - intros (c & rest & -> & C & N & F).
    exists [c], rest. split; [reflexivity|]. split.
    + exists c. rewrite class_upper. auto.
    + apply lang_plus_class.
      rewrite (same_forallb _ _ rest class_letters'). auto.
Qed.

Lemma lang_spaced (word : re) (s : jsstring) :
  lang (spaced word) s
  <-> exists ws, ws <> [] /\ Forall (lang word) ws /\ s = join ws.
Proof.
  unfold spaced. cbn [lang]. split.
  - intros (w1 & w2 & -> & L1 & ws & F & ->).
    assert (T : exists us,
               Forall (lang word) us
               /\ List.concat ws = List.concat (map (cons 32%N) us)).
    { clear L1. induction F as [|x l (a & b & -> & (c & -> & C) & Lb) _ IH].
      - exists []. auto.
      - destruct IH as (us & Fu & E). exists (b :: us).
        split; [constructor; assumption|].
        rewrite class_one in C. apply N.eqb_eq in C. subst c.
        cbn. rewrite E. reflexivity. }
    destruct T as (us & Fu & E). exists (w1 :: us).
    split; [discriminate|]. split; [constructor; assumption|].
    cbn [join]. rewrite E. reflexivity.
  - intros (ws & N & F & ->). destruct ws as [|w1 us]; [contradiction|].
    inversion F as [|x l L1 Fu]; subst.
    exists w1, (List.concat (map (cons 32%N) us)).
    split; [reflexivity|]. split; [exact L1|].
    exists (map (cons 32%N) us). split; [|reflexivity].
    clear -Fu. induction Fu as [|u l Lu _ IH]; cbn [map]; constructor;
      [|exact IH].
    exists [32%N], u. split; [reflexivity|]. split; [|exact Lu].
    exists 32%N. split; [reflexivity|]. rewrite class_one. reflexivity.
Qed.

Lemma plain_spaced (word : re) :
  plain word -> plain (spaced word).
Proof.
  intros P. cbn. repeat split; try exact P.
  intros w (a & b & -> & (c & -> & _) & _). discriminate.
Qed.

Lemma plain_capitalised : plain re_capitalised.
Proof.
  unfold re_capitalised. split; [exact I | apply plain_plus_class].
Qed.

Lemma test_position (s : jsstring) :
  test re_position s = true
  <-> exists ws, ws <> [] /\ Forall letters_word ws /\ s = join ws.
Proof.
  unfold re_position. rewrite test_anchored.
  match goal with
  | |- ?x = true <-> _ =>
      change x with (m (spaced re_letters) (m Eos accept) 0 s)
  end.
  rewrite (anchored_lang (spaced re_letters) s
             (plain_spaced re_letters (plain_plus_class _))).
  rewrite lang_spaced. split; intros (ws & N & F & E); exists ws;
    (split; [exact N|]; split; [|exact E]);
    revert F; apply Forall_impl; intros w; apply lang_letters.
Qed.

Lemma test_empName (s : jsstring) :
  test re_empName s = true
  <-> exists ws, ws <> [] /\ Forall capitalised ws /\ s = join ws.
Proof.
  unfold re_empName. rewrite test_anchored.
  match goal with
  | |- ?x = true <-> _ =>
      change x with (m (spaced re_capitalised) (m Eos accept) 0 s)
  end.
  rewrite (anchored_lang (spaced re_capitalised) s
             (plain_spaced re_capitalised plain_capitalised)).
  rewrite lang_spaced. split; intros (ws & N & F & E); exists ws;
    (split; [exact N|]; split; [|exact E]);
    revert F; apply Forall_impl; intros w; apply lang_capitalised.
Qed.

Lemma join_not_empty (P : jsstring -> Prop) (ws : list jsstring) :
  (forall w, P w -> w <> []) -> ws <> [] -> Forall P ws -> join ws <> [].
Proof.
  intros Ne N F. destruct ws as [|w us]; [contradiction|].
  inversion F as [|x l Pw _]; subst. pose proof (Ne w Pw) as Nw.
  cbn [join]. destruct w; [contradiction | discriminate].
Qed.

Lemma position_rule (s : jsstring) :
  invalid_position (TString s) = false
  <-> exists ws, ws <> [] /\ Forall letters_word ws /\ s = join ws.
Proof.
  unfold invalid_position. cbn [ToString].
  rewrite orb_false_iff, !negb_false_iff, test_position. split.
  - intros [_ H]. exact H.
  - intros (ws & N & F & E). split; [|exists ws; auto].
    assert (J : join ws <> []).
    { apply (join_not_empty letters_word); auto. intros w [Nw _]. exact Nw. }
    rewrite E. destruct (join ws); [contradiction | reflexivity].
Qed.

Lemma empName_rule (s : jsstring) :
  invalid_empName (TString s) = false
  <-> exists ws, ws <> [] /\ Forall capitalised ws /\ s = join ws.
Proof.
  unfold invalid_empName. cbn [ToString].
  rewrite orb_false_iff, !negb_false_iff, test_empName. split.
  - intros [_ H]. exact H.
  - intros (ws & N & F & E). split; [|exists ws; auto].
    assert (J : join ws <> []).
    { apply (join_not_empty capitalised); auto.
      intros w (c & rest & -> & _). discriminate. }
    rewrite E. destruct (join ws); [contradiction | reflexivity].
Qed.

(** X1.  The position rule accepts a string exactly when it is one or
    more words of letters A-Z or a-z with exactly one space between
    neighbouring words; so a leading, trailing or doubled space, a digit
    or a hyphen make it fail, and a missing or null value is refused. *)
Theorem position_accepted_iff :
  (forall s : jsstring,
      invalid_position (TString s) = false
      <-> exists ws, ws <> [] /\ Forall letters_word ws /\ s = join ws)
  /\ invalid_position TUndefined = true
  /\ invalid_position TNull = true
  /\ invalid_position (TString (u "Engineer ")) = true
  /\ invalid_position (TString (u "Senior  Engineer")) = true
  /\ invalid_position (TString (u "Engineer 2")) = true.
Proof.
  split; [exact position_rule|]. repeat split; reflexivity.
Qed.

(** X2.  The name rule accepts a string exactly when it is one or more
    words, each a capital A-Z followed by at least one letter A-Z or
    a-z, with exactly one space between neighbouring words; so a single
    initial, a lower-case start or a hyphenated name fail, and a missing
    or null value is refused. *)
Theorem empName_accepted_iff :
  (forall s : jsstring,
      invalid_empName (TString s) = false
      <-> exists ws, ws <> [] /\ Forall capitalised ws /\ s = join ws)
  /\ invalid_empName TUndefined = true
  /\ invalid_empName TNull = true
  /\ invalid_empName (TString (u "J")) = true
  /\ invalid_empName (TString (u "jane Doe")) = true
  /\ invalid_empName (TString (u "Jane Doe-Smith")) = true.
Proof.
  split; [exact empName_rule|]. repeat split; reflexivity.
Qed.

(** ** The department and employee-id rules, and the block as a whole *)

Lemma department_rule (s : jsstring) :
  invalid_department (TString s) = false <-> In s departments.
Proof.
  unfold invalid_department. rewrite orb_false_iff, !negb_false_iff.
  cbn [includes]. rewrite existsb_exists. split.
  - intros [_ (x & I & E)]. apply jsstring_eqb_eq in E. subst x. exact I.
  - intros I. split.
    + cbn in I. repeat (destruct I as [<- | I]; [reflexivity|]). destruct I.
    + exists s. split; [exact I | apply jsstring_eqb_refl].
Qed.

(** X3.  The department rule accepts exactly the four strings
    Engineering, Marketing, HR and Finance, compared character by
    character: another case or a padded value is refused, like a missing
    or null one. *)
Theorem department_accepted_iff :
  (forall s : jsstring,
      invalid_department (TString s) = false
      <-> s = u "Engineering" \/ s = u "Marketing" \/ s = u "HR"
          \/ s = u "Finance")
  /\ invalid_department (TString (u "hr")) = true
  /\ invalid_department (TString (u "HR ")) = true
  /\ invalid_department TUndefined = true
  /\ invalid_department TNull = true.
Proof.
  split; [|repeat split; reflexivity].
  intros s. rewrite department_rule. cbn [departments In].
  split; intros H; repeat (destruct H as [H | H]; auto); destruct H.
Qed.

Lemma empId_rule (s : jsstring) :
  invalid_empId (TString s) = false
  <-> exists d1 d2 d3 : char16,
      s = u "ATS0" ++ [d1; d2; d3]
      /\ is_digit d1 = true /\ is_digit d2 = true /\ is_digit d3 = true
      /\ [d1; d2; d3] <> u "000".
Proof.
  unfold invalid_empId. cbn [ToString].
  rewrite test_empId, orb_false_iff, !negb_false_iff.
  split.
  - intros [_ H].
    destruct s as [|c1 [|c2 [|c3 [|c4 [|c5 [|c6 [|c7 [|c8 s]]]]]]]];
      try discriminate H.
    cbn [empId_shape] in H.
    repeat (apply andb_prop in H; destruct H as [H ?]).
    repeat match goal with
           | E : N.eqb _ _ = true |- _ => apply N.eqb_eq in E; subst
           end.
    exists c5, c6, c7. repeat split; try assumption.
    intros E. inversion E; subst. discriminate.
  - intros (d1 & d2 & d3 & -> & H1 & H2 & H3 & Hne).
    split; [reflexivity|].
    cbn [u list_ascii_of_string map app empId_shape code].
    rewrite H1, H2, H3. cbn.
    destruct (N.eqb_spec d1 48); [|reflexivity].
    destruct (N.eqb_spec d2 48); [|reflexivity].
    destruct (N.eqb_spec d3 48); [|reflexivity].
    subst. exfalso. apply Hne. reflexivity.
Qed.

Lemma validation_None_iff (b : Body.t) :
  validation b = None
  <-> invalid_empName (Body.empName b) = false
      /\ invalid_position (Body.position b) = false
      /\ invalid_department (Body.department b) = false
      /\ invalid_empId (Body.empId b) = false
      /\ invalid_feedback (Body.feedback b) = false
      /\ invalid_acknowledgment (Body.acknowledgment b) = false
      /\ invalid_finalSalary (Body.finalSalary b) = false
      /\ invalid_bonus (Body.bonus b) = false.
Proof.
  split; [apply validation_passes|].
  intros (H1 & H2 & H3 & H4 & H5 & H6 & H7 & H8). unfold validation.
  rewrite H1, H2, H3, H4, H5, H6, H7, H8. reflexivity.
Qed.

Lemma text_rule (f : jstext -> bool) (P : jsstring -> Prop) (x : jstext) :
  f TUndefined = true -> f TNull = true ->
  (forall s, f (TString s) = false <-> P s) ->
  (f x = false <-> exists s, x = TString s /\ P s).
Proof.
  intros U N R. destruct x as [| | s].
  - rewrite U. split; [discriminate | intros (s & E & _); discriminate E].
  - rewrite N. split; [discriminate | intros (s & E & _); discriminate E].
  - rewrite R. split.
    + intros H. exists s. auto.
    + intros (s' & E & H). injection E as <-. exact H.
Qed.

(** X4.  A body passes the validation block exactly when all of this
    holds: the name is capitalised words joined by single spaces, the
    position is words of letters joined by single spaces, the department
    is one of the four, the employee id is ATS0 and three digits other
    than 000, feedback and acknowledgment are non-empty strings of at
    most 500 and 300 code units with a letter, the salary is a number
    from 1000 to 1000000 and the bonus (null counting as 0) one from 0
    to 100000. *)
Theorem validation_accepts_iff (b : Body.t) :
  validation b = None
  <-> acceptable b.
Proof.
  rewrite validation_None_iff. unfold acceptable.
  rewrite (text_rule invalid_empName _ (Body.empName b)
             eq_refl eq_refl empName_rule).
  rewrite (text_rule invalid_position _ (Body.position b)
             eq_refl eq_refl position_rule).
  rewrite (text_rule invalid_department _ (Body.department b)
             eq_refl eq_refl department_rule).
  rewrite (text_rule invalid_empId _ (Body.empId b)
             eq_refl eq_refl empId_rule).
  rewrite (text_rule invalid_feedback _ (Body.feedback b)
             eq_refl eq_refl (shape_rule 500)).
  rewrite (text_rule invalid_acknowledgment _ (Body.acknowledgment b)
             eq_refl eq_refl (shape_rule 300)).
  unfold invalid_finalSalary, invalid_bonus. rewrite !range_rule.
  reflexivity.
Qed.

(** ** What a statement can do to the table *)

Lemma insert_cases (now : Z) (db : Db.t) (v : Db.values) :
  Db.up (snd (Db.insert now db v)) = Db.up db
  /\ ((exists code,
          fst (Db.insert now db v) = Db.Rejected code
          /\ Db.rows (snd (Db.insert now db v)) = Db.rows db
          /\ (Db.next_id db <= Db.next_id (snd (Db.insert now db v)))%Z)
      \/ (exists r,
             fst (Db.insert now db v) = Db.Resolved (Db.next_id db)
             /\ snd (Db.insert now db v)
                = Db.mk (Db.up db) (Db.rows db ++ [r]) (Db.next_id db + 1)
             /\ Db.id r = Db.next_id db
             /\ Db.created_at r = now
             /\ Db.taken (Db.employee_id r) (Db.rows db) = false
             /\ Db.up db = true)).
Proof.
  unfold Db.insert.
  destruct (Db.up db) eqn:U; cbn [negb];
    [|split; [exact U | left; eexists; repeat split; cbn; lia]].
  repeat match goal with
         | |- context [if ?c then _ else _] => destruct c eqn:?
         | |- context [match ?x with Some _ => _ | None => _ end] =>
             destruct x eqn:?
         end; cbn [fst snd Db.up Db.rows Db.next_id];
    (split; [try exact U; reflexivity|]);
    try (left; eexists; repeat split; cbn; lia).
  right. eexists. repeat split; cbn; try reflexivity. assumption.
Qed.

(** ** Validated values and their columns *)

Lemma ends_with_letter_word (w : jsstring) :
  w <> [] -> forallb is_letter w = true ->
  exists pre c, w = pre ++ [c] /\ is_letter c = true.
Proof.
  intros N F. destruct (exists_last N) as (pre & c & ->).
  rewrite forallb_app in F. apply andb_prop in F. destruct F as [_ F].
  cbn in F. rewrite andb_true_r in F. exists pre, c. auto.
Qed.

Lemma join_ends_with_letter (P : jsstring -> Prop) (ws : list jsstring) :
  (forall w, P w -> exists pre c, w = pre ++ [c] /\ is_letter c = true) ->
  ws <> [] -> Forall P ws ->
  exists pre c, join ws = pre ++ [c] /\ is_letter c = true.
Proof.
  intros E N F. destruct ws as [|w us]; [contradiction|].
  inversion F as [|x l Pw Fu]; subst. cbn [join].
  destruct us as [|u us].
  - cbn. rewrite app_nil_r. exact (E w Pw).
  - assert (T : exists pre c,
               List.concat (map (cons 32%N) (u :: us)) = pre ++ [c]
               /\ is_letter c = true).
    { clear -E Fu. remember (u :: us) as l eqn:L.
      assert (Nl : l <> []) by (subst; discriminate). clear L.
      induction Fu as [|x l Px Fl IH]; [contradiction|].
      destruct l as [|y l].
      - destruct (E x Px) as (pre & c & -> & C).
        exists (32%N :: pre), c. cbn. rewrite app_nil_r. auto.
      - destruct (IH ltac:(discriminate)) as (pre & c & Eq & C).
        exists ((32%N :: x) ++ pre), c. cbn [map List.concat] in *.
        rewrite Eq, <- app_assoc. auto. }
    destruct T as (pre & c & Eq & C). exists (w ++ pre), c.
    rewrite Eq, app_assoc. auto.
Qed.

Lemma varchar_no_cut (n : nat) (s pre : jsstring) (c : char16) :
  s = pre ++ [c] -> is_letter c = true ->
  Db.varchar n (Some s)
  = if Nat.leb (List.length s) n then Some (Some s) else None.
Proof.
  intros -> C. unfold Db.varchar.
  destruct (Nat.leb_spec (List.length (pre ++ [c])) n) as [L | L];
    [reflexivity|].
  rewrite length_app in L. cbn in L.
  rewrite skipn_app, forallb_app.
  replace (n - List.length pre)%nat with 0%nat by lia.
  cbn [skipn forallb].
  destruct (N.eqb_spec 32 c) as [<- | Ne]; [discriminate C|].
  cbn [andb]. rewrite andb_false_r. reflexivity.
Qed.

Lemma name_no_cut (n : nat) (s : jsstring) :
  test re_empName s = true ->
  Db.varchar n (Some s)
  = if Nat.leb (List.length s) n then Some (Some s) else None.
Proof.
  intros H. apply test_empName in H. destruct H as (ws & N & F & ->).
  destruct (join_ends_with_letter capitalised ws) as (pre & c & E & C);
    try assumption.
  - intros w (a & rest & -> & _ & Nr & Fr).
    destruct (ends_with_letter_word rest Nr Fr) as (pre & c & -> & C).
    exists (a :: pre), c. auto.
  - exact (varchar_no_cut n _ pre c E C).
Qed.

Lemma position_no_cut (n : nat) (s : jsstring) :
  test re_position s = true ->
  Db.varchar n (Some s)
  = if Nat.leb (List.length s) n then Some (Some s) else None.
Proof.
  intros H. apply test_position in H. destruct H as (ws & N & F & ->).
  destruct (join_ends_with_letter letters_word ws) as (pre & c & E & C);
    try assumption.
  - intros w [Nw Fw]. exact (ends_with_letter_word w Nw Fw).
  - exact (varchar_no_cut n _ pre c E C).
Qed.

Lemma storableb_spec (b : Body.t) : storableb b = true <-> storable b.
Proof.
  unfold storableb, storable.
  rewrite !andb_true_iff, !Nat.leb_le. split.
  - intros ((((A & B) & C) & D) & E). repeat split; try assumption.
    + intros I. rewrite forallb_forall in C. specialize (C _ I).
      discriminate C.
    + intros I. rewrite forallb_forall in D. specialize (D _ I).
      discriminate D.
    + intros N. rewrite N in E. discriminate E.
  - intros (A & B & C & D & E). repeat split; try assumption.
    + apply not_nul_forallb, C.
    + apply not_nul_forallb, D.
    + destruct (Body.bonus b); try reflexivity. contradiction.
Qed.

(** The insert of a validated body the table cannot hold is refused, by
    the encoding, by a column length or by NOT NULL. *)
Lemma insert_unstorable (now : Z) (db : Db.t) (b : Body.t) :
  Db.up db = true -> validation b = None -> storableb b = false ->
  exists code db',
    Db.insert now db (values_of b) = (Db.Rejected code, db')
    /\ In code ["22021"; "22001"; "23502"]%string
    /\ Db.rows db' = Db.rows db /\ Db.up db' = Db.up db.
Proof.
  intros U V S.
  destruct (validation_passes b V) as (V1 & V2 & V3 & V4 & V5 & V6 & V7 & V8).
  destruct b as [name pos dep emp fb sal bon ack].
  unfold storableb in S.
  cbn [Body.empName Body.position Body.department Body.empId Body.feedback
       Body.finalSalary Body.bonus Body.acknowledgment] in *.
  unfold invalid_empName in V1. unfold invalid_position in V2.
  unfold invalid_department in V3. unfold invalid_empId in V4.
  unfold invalid_feedback in V5. unfold invalid_acknowledgment in V6.
  apply orb_false_elim in V1, V2, V3, V4, V5, V6.
  destruct V1 as [T1 R1], V2 as [T2 R2], V3 as [T3 R3], V4 as [T4 R4].
  destruct V5 as [V5 _], V6 as [V6 _].
  apply orb_false_elim in V5, V6. destruct V5 as [T5 _], V6 as [T6 _].
  destruct (truthy_string _ T1) as [name' ->].
  destruct (truthy_string _ T2) as [pos' ->].
  destruct (truthy_string _ T3) as [dep' ->].
  destruct (truthy_string _ T4) as [emp' ->].
  destruct (truthy_string _ T5) as [fb' ->].
  destruct (truthy_string _ T6) as [ack' ->].
  apply negb_false_iff in R1, R2, R3, R4. cbn [ToString chars] in *.
  pose proof (empName_not_nul _ R1) as N1.
  pose proof (position_not_nul _ R2) as N2.
  apply department_fits in R3. destruct R3 as [Ld Nd].
  apply empId_fits in R4. destruct R4 as [Le Ne].
  apply range_rule in V7, V8.
  assert (Sal : sal <> NNull).
  { intros ->. destruct V7 as (q & E & Lq & _). cbn in E.
    injection E as <-. revert Lq. unfold Qle. cbn. lia. }
  destruct (numeric_fits 1000 1000000 sal ltac:(lia) ltac:(lia) Sal V7)
    as (qs & -> & Ns).
  unfold Db.insert, values_of.
  cbn [Db.v_employee_name Db.v_position Db.v_department Db.v_employee_id
       Db.v_feedback Db.v_final_salary Db.v_bonus Db.v_acknowledgment
       text_param number_param Body.empName Body.position Body.department
       Body.empId Body.feedback Body.finalSalary Body.bonus
       Body.acknowledgment].
  rewrite U. cbn [negb]. unfold Db.encodable. rewrite N1, N2, Nd, Ne.
  cbn [andb].
  destruct (forallb Db.not_nul fb') eqn:Zf; cbn [andb negb];
    [|exists "22021"%string, db; cbn; tauto].
  destruct (forallb Db.not_nul ack') eqn:Za; cbn [andb negb];
    [|exists "22021"%string, db; cbn; tauto].
  rewrite (name_no_cut 30 _ R1), (position_no_cut 30 _ R2).
  destruct (Nat.leb (List.length name') 30) eqn:Ln;
    [|exists "22001"%string, db; cbn; tauto].
  destruct (Nat.leb (List.length pos') 30) eqn:Lp;
    [|exists "22001"%string, db; cbn; tauto].
  cbn [andb] in S.
  destruct bon as [| | nb]; try discriminate S.
  unfold Db.varchar. apply Nat.leb_le in Ld, Le. rewrite Ld, Le.
  rewrite Ns. cbn [Db.numeric_10_2].
  eexists "23502"%string, _. split; [reflexivity|]. cbn. tauto.
Qed.

(** ** Every answer of the submit handlers *)


Lemma insert_any (now : Z) (db : Db.t) (b : Body.t) :
  validation b = None ->
  (Db.insert now db (values_of b)
   = (Db.Resolved (Db.next_id db),
      Db.mk true (Db.rows db ++ [row_of (Db.next_id db) now b])
            (Db.next_id db + 1))
   /\ Db.up db = true /\ storable b
   /\ Db.taken (chars (Body.empId b)) (Db.rows db) = false)
  \/ (Db.insert now db (values_of b)
      = (Db.Rejected "23505", Db.mk true (Db.rows db) (Db.next_id db + 1))
      /\ Db.up db = true /\ storable b
      /\ Db.taken (chars (Body.empId b)) (Db.rows db) = true)
  \/ (exists code db',
         Db.insert now db (values_of b) = (Db.Rejected code, db')
         /\ In code ["ECONNREFUSED"; "22021"; "22001"; "23502"]%string
         /\ Db.rows db' = Db.rows db /\ Db.up db' = Db.up db
         /\ (Db.next_id db <= Db.next_id db')%Z
         /\ (Db.up db = false \/ ~ storable b)).
Proof.
  intros V. destruct (Db.up db) eqn:U.
  - destruct (storableb b) eqn:S.
    + pose proof (proj1 (storableb_spec b) S) as St.
      rewrite (insert_validated now db b U V St), U.
      destruct (Db.taken (chars (Body.empId b)) (Db.rows db));
        [right; left | left];
        (split; [reflexivity|]; split; [reflexivity|];
         split; [exact St | reflexivity]).
    + destruct (insert_unstorable now db b U V S) as (c & db' & E & I & R & P).
      right. right. exists c, db'. split; [exact E|].
      split; [cbn in *; tauto|]. split; [exact R|].
      split; [congruence|]. split.
      * destruct (insert_cases now db (values_of b)) as [_ [(c' & _ & _ & L) |
                                                          (r & F & _)]];
          rewrite E in *; cbn [fst snd] in *; [exact L | discriminate F].
      * right. intros St. apply storableb_spec in St. congruence.
  - right. right. exists "ECONNREFUSED"%string, db.
    unfold Db.insert. rewrite U. cbn. repeat split; try tauto; lia.
Qed.

Lemma not_23505 (code : string) :
  In code ["ECONNREFUSED"; "22021"; "22001"; "23502"]%string ->
  String.eqb code "23505" = false.
Proof.
  cbn. intros H. repeat (destruct H as [<- | H]; [reflexivity|]). destruct H.
Qed.



Lemma error_codes_3100 (code : Z) (msg : string) :
  In (code, msg) error_answers_3100 ->
  code = 400%Z \/ code = 409%Z \/ code = 500%Z.
Proof.
  unfold error_answers_3100. intros H. apply in_app_or in H.
  destruct H as [H | H].
  - apply in_map_iff in H. destruct H as (r & E & _). injection E as <- _.
    auto.
  - cbn in H. destruct H as [E | [E | []]]; injection E as <- _; auto.
Qed.

Lemma error_codes_3021 (code : Z) (msg : string) :
  In (code, msg) error_answers_3021 -> code = 400%Z \/ code = 500%Z.
Proof.
  unfold error_answers_3021. intros H. apply in_app_or in H.
  destruct H as [H | H].
  - apply in_map_iff in H. destruct H as (r & E & _). injection E as <- _.
    auto.
  - cbn in H. destruct H as [E | [E | []]]; injection E as <- _; auto.
Qed.

(** X7.  With the store up and a body that passes validation, the
    status of the server on port 3100 tells what the store did: 201
    exactly when the table can hold the body and the employee id is new,
    409 exactly when it can hold it and the id is taken, and 500 exactly
    when it cannot hold it (a name or position over 30 characters, a
    U+0000 in feedback or acknowledgment, a null bonus). *)
Theorem status_after_validation (now : Z) (db : Db.t) (b : Body.t) :
  Db.up db = true -> validation b = None ->
  (status (fst (Server3100.post_submit now db b)) = 201%Z
   <-> storable b /\ Db.taken (chars (Body.empId b)) (Db.rows db) = false)
  /\ (status (fst (Server3100.post_submit now db b)) = 409%Z
      <-> storable b /\ Db.taken (chars (Body.empId b)) (Db.rows db) = true)
  /\ (status (fst (Server3100.post_submit now db b)) = 500%Z
      <-> ~ storable b).
Proof.
  intros U V. unfold Server3100.post_submit. rewrite V.
  destruct (insert_any now db b V)
    as [(E & _ & S & T)
       | [(E & _ & S & T) | (c & db' & E & I & _ & _ & _ & N)]];
    rewrite E; [| |rewrite (not_23505 c I)]; cbn [fst status String.eqb].
  - split; [|split]; (split; [intros H | intros H']);
      try discriminate H; try tauto.
    exfalso. rewrite T in H'. destruct H' as [_ H']. discriminate H'.
  - split; [|split]; (split; [intros H | intros H']);
      try discriminate H; try tauto.
    exfalso. rewrite T in H'. destruct H' as [_ H']. discriminate H'.
  - assert (Ns : ~ storable b)
      by (destruct N as [N | N]; [congruence | exact N]).
    split; [|split]; (split; [intros H | intros H']);
      try discriminate H; tauto.
Qed.

Lemma status_after_validation_witness :
  (status (fst (Server3100.post_submit 20 jane_stored null_bonus)) = 201%Z
   <-> storable null_bonus
       /\ Db.taken (chars (Body.empId null_bonus)) (Db.rows jane_stored)
          = false)
  /\ (status (fst (Server3100.post_submit 20 jane_stored null_bonus)) = 409%Z
      <-> storable null_bonus
          /\ Db.taken (chars (Body.empId null_bonus)) (Db.rows jane_stored)
             = true)
  /\ (status (fst (Server3100.post_submit 20 jane_stored null_bonus)) = 500%Z
      <-> ~ storable null_bonus).
Proof.
  apply (status_after_validation 20 jane_stored null_bonus); reflexivity.
Defined.

Example null_bonus_500 :
  Server3100.post_submit 20 jane_stored null_bonus
  = (mkResponse 500 (error_body "Internal server error"),
     Db.mk true (Db.rows jane_stored) 3).
Proof. reflexivity. Qed.

(** ** Runs of requests *)

Lemma table_step_3100 (now : Z) (db : Db.t) (b : Body.t) :
  table_step db (Server3100.post_submit now db b).
Proof.
  unfold table_step, Server3100.post_submit.
  destruct (validation b) as [msg|].
  { cbn. split; [reflexivity|]. left. repeat split; lia. }
  destruct (insert_cases now db (values_of b))
    as [U [(c & E & R & L) | (r & E & D & I & _ & T & _)]];
    destruct (Db.insert now db (values_of b)) as [o db'];
    cbn [fst snd] in *; subst o.
  - destruct (String.eqb c "23505"); cbn [fst snd];
      (split; [exact U|]); left; repeat split; assumption.
  - cbn [fst snd]. split; [exact U|]. right. split; [reflexivity|].
    exists r. rewrite D. cbn. auto.
Qed.

Lemma table_step_3021 (now : Z) (db : Db.t) (b : Body.t) :
  table_step db (Server3021.post_submit now db b).
Proof.
  unfold table_step, Server3021.post_submit.
  destruct (validation b) as [msg|].
  { cbn. split; [reflexivity|]. left. repeat split; lia. }
  destruct (insert_cases now db (values_of b))
    as [U [(c & E & R & L) | (r & E & D & I & _ & T & _)]];
    destruct (Db.insert now db (values_of b)) as [o db'];
    cbn [fst snd] in *; subst o.
  - destruct (String.eqb c "23505"); cbn [fst snd];
      (split; [exact U|]); left; repeat split; assumption.
  - cbn [fst snd]. split; [exact U|]. right. split; [reflexivity|].
    exists r. rewrite D. cbn. auto.
Qed.

Lemma sorted_snoc (l : list Z) (x : Z) :
  StronglySorted Z.lt l -> Forall (fun y => (y < x)%Z) l ->
  StronglySorted Z.lt (l ++ [x]).
Proof.
  induction 1 as [|y l S IH F]; intros B; cbn.
  - repeat constructor.
  - inversion B as [|? ? By Bl]; subst. constructor; [exact (IH Bl)|].
    apply Forall_app. split; [exact F | repeat constructor; exact By].
Qed.

Lemma step_keeps_invariants (db : Db.t) (out : response * Db.t) :
  table_step db out ->
  consistent db /\ ids_increasing db ->
  consistent (snd out) /\ ids_increasing (snd out).
Proof.
  intros [_ [(_ & R & L) | (_ & r & R & I & Nx & T)]] [[N F] S];
    unfold consistent, ids_increasing; rewrite R.
  - repeat split; try assumption.
    revert F. apply Forall_impl. intros a. lia.
  - rewrite Nx, !map_app. cbn [map]. repeat split.
    + apply NoDup_app; [exact N | repeat constructor; intros [] |].
      intros x Ix [<- | []]. exact (taken_false _ _ T Ix).
    + apply Forall_app. split.
      * revert F. apply Forall_impl. intros a. lia.
      * repeat constructor. lia.
    + apply sorted_snoc; [exact S|]. rewrite I. apply Forall_map. exact F.
Qed.

Lemma serve_keeps_invariants (post : handler) (list_all : Db.t -> response) :
  (forall now db b, table_step db (post now db b)) ->
  forall rs db,
    consistent db /\ ids_increasing db ->
    consistent (snd (run (serve post list_all) db rs))
    /\ ids_increasing (snd (run (serve post list_all) db rs)).
Proof.
  intros O rs. induction rs as [|r rs IH]; intros db I; [exact I|].
  cbn [run].
  destruct (serve post list_all db r) as [a db1] eqn:E.
  specialize (IH db1).
  destruct (run (serve post list_all) db1 rs) as [answers db2].
  cbn [snd] in *. apply IH. clear IH.
  destruct r as [now b | | |]; cbn [serve] in E.
  - pose proof (step_keeps_invariants db _ (O now db b) I) as K.
    destruct (post now db b) as [res db']. injection E as _ <-. exact K.
  - injection E as _ <-. exact I.
  - injection E as _ <-. exact I.
  - injection E as _ <-. exact I.
Qed.

(** X8.  Over any run of submit and list requests, with the store going
    down and coming back in between, both servers keep the table
    consistent: no two rows share an employee id, every id is below the
    next value of the sequence, and ids grow from row to row. *)
Theorem run_keeps_table_consistent (rs : list request) (db : Db.t) :
  consistent db -> ids_increasing db ->
  (consistent (snd (run serve3100 db rs))
   /\ ids_increasing (snd (run serve3100 db rs)))
  /\ (consistent (snd (run serve3021 db rs))
      /\ ids_increasing (snd (run serve3021 db rs))).
Proof.
  intros C S. split.
  - apply (serve_keeps_invariants _ _ table_step_3100 rs db). auto.
  - apply (serve_keeps_invariants _ _ table_step_3021 rs db). auto.
Qed.

Lemma serve_appends (post : handler) (list_all : Db.t -> response) :
  (forall now db b, table_step db (post now db b)) ->
  (forall db, created (Some (list_all db)) = false) ->
  forall rs db,
    exists added,
      Db.rows (snd (run (serve post list_all) db rs)) = Db.rows db ++ added
      /\ List.length added
         = List.length (filter created
                               (fst (run (serve post list_all) db rs))).
Proof.
  intros O G rs. induction rs as [|r rs IH]; intros db.
  - exists []. cbn. rewrite app_nil_r. auto.
  - cbn [run].
    destruct (serve post list_all db r) as [a db1] eqn:E.
    destruct (IH db1) as (added & R & L).
    destruct (run (serve post list_all) db1 rs) as [answers db2].
    cbn [fst snd filter] in *.
    destruct r as [now b | | |]; cbn [serve] in E.
    + pose proof (O now db b) as T.
      destruct (post now db b) as [res db']. injection E as <- <-.
      destruct T as [_ [(Cr & Rw & _) | (Cr & r & Rw & _)]];
        cbn [fst snd] in *; rewrite Cr.
      * exists added. rewrite R, Rw. auto.
      * exists (r :: added). rewrite R, Rw, <- app_assoc. cbn.
        auto.
    + injection E as <- <-. exists added. rewrite (G db). auto.
    + injection E as <- <-. exists added. cbn. auto.
    + injection E as <- <-. exists added. cbn. auto.
Qed.

Lemma list_not_created_3100 (db : Db.t) :
  created (Some (Server3100.get_offboarding db)) = false.
Proof.
  unfold Server3100.get_offboarding, select. destruct (Db.up db); reflexivity.
Qed.

Lemma list_not_created_3021 (db : Db.t) :
  created (Some (Server3021.get_offboarding db)) = false.
Proof.
  unfold Server3021.get_offboarding, select. destruct (Db.up db); reflexivity.
Qed.

(** X9.  Rows are never changed or removed: after any run of requests
    the table of either server is the table before the run followed by
    new rows, exactly one for each answer that reports a stored record
    (the answers with an id). *)
Theorem run_only_appends (rs : list request) (db : Db.t) :
  (exists added,
      Db.rows (snd (run serve3100 db rs)) = Db.rows db ++ added
      /\ List.length added
         = List.length (filter created (fst (run serve3100 db rs))))
  /\ (exists added,
         Db.rows (snd (run serve3021 db rs)) = Db.rows db ++ added
         /\ List.length added
            = List.length (filter created (fst (run serve3021 db rs)))).
Proof.
  split.
  - exact (serve_appends _ _ table_step_3100 list_not_created_3100 rs db).
  - exact (serve_appends _ _ table_step_3021 list_not_created_3021 rs db).
Qed.

Lemma run_keeps_table_consistent_witness :
  (consistent
     (snd (run serve3100 jane_stored
               [Submit 20 jane; StoreDown; Submit 30 john; StoreUp;
                Submit 40 john; ListAll]))
   /\ ids_increasing
        (snd (run serve3100 jane_stored
                  [Submit 20 jane; StoreDown; Submit 30 john; StoreUp;
                   Submit 40 john; ListAll])))
  /\ (consistent
        (snd (run serve3021 jane_stored
                  [Submit 20 jane; StoreDown; Submit 30 john; StoreUp;
                   Submit 40 john; ListAll]))
      /\ ids_increasing
           (snd (run serve3021 jane_stored
                     [Submit 20 jane; StoreDown; Submit 30 john; StoreUp;
                      Submit 40 john; ListAll]))).
Proof.
  apply (run_keeps_table_consistent
           [Submit 20 jane; StoreDown; Submit 30 john; StoreUp;
            Submit 40 john; ListAll] jane_stored).
  - split; cbn; repeat constructor. intros [].
  - unfold ids_increasing. cbn. repeat constructor.
Defined.

Example run_example :
  map (option_map status)
      (fst (run serve3100 jane_stored
                [Submit 20 jane; StoreDown; Submit 30 john; StoreUp;
                 Submit 40 john; ListAll]))
  = [Some 409; None; Some 500; None; Some 201; Some 200]%Z
  /\ map Db.id
         (Db.rows (snd (run serve3100 jane_stored
                            [Submit 20 jane; StoreDown; Submit 30 john;
                             StoreUp; Submit 40 john; ListAll])))
     = [1; 3]%Z.
Proof. split; reflexivity. Qed.

(** ** From submit to list *)









(** ** While the store is down *)

Lemma down_3100 (now : Z) (db : Db.t) (b : Body.t) :
  Db.up db = false ->
  snd (Server3100.post_submit now db b) = db
  /\ refusal (Some (fst (Server3100.post_submit now db b))).
Proof.
  intros U. unfold Server3100.post_submit, Db.insert. rewrite U.
  destruct (validation b); cbn; auto.
Qed.

Lemma down_3021 (now : Z) (db : Db.t) (b : Body.t) :
  Db.up db = false ->
  snd (Server3021.post_submit now db b) = db
  /\ refusal (Some (fst (Server3021.post_submit now db b))).
Proof.
  intros U. unfold Server3021.post_submit, Db.insert. rewrite U.
  destruct (validation b); cbn; auto.
Qed.

Lemma serve_down (post : handler) (list_all : Db.t -> response) :
  (forall now db b, Db.up db = false ->
                    snd (post now db b) = db
                    /\ refusal (Some (fst (post now db b)))) ->
  (forall db, Db.up db = false -> refusal (Some (list_all db))) ->
  forall rs db,
    Db.up db = false -> no_recovery rs = true ->
    snd (run (serve post list_all) db rs) = db
    /\ Forall refusal (fst (run (serve post list_all) db rs)).
Proof.
  intros P G rs. induction rs as [|r rs IH]; intros db U N.
  - cbn. auto.
  - cbn [no_recovery forallb] in N. apply andb_prop in N.
    destruct N as [Nr N]. cbn [run].
    destruct (serve post list_all db r) as [a db1] eqn:E.
    assert (S : db1 = db /\ refusal a).
    { destruct r as [now b | | |]; cbn [serve] in E; try discriminate Nr.
      - destruct (P now db b U) as [D R].
        destruct (post now db b) as [res db']. injection E as <- <-. auto.
      - injection E as <- <-. split; [reflexivity | exact (G db U)].
      - injection E as <- <-. split; [|exact I].
        destruct db as [up rows next]. cbn in U. subst up. reflexivity. }
    destruct S as [-> R]. specialize (IH db U N).
    destruct (run (serve post list_all) db rs) as [answers db2].
    cbn [fst snd] in *. destruct IH as [-> F]. split; [reflexivity|].
    constructor; assumption.
Qed.

(** X12.  While the store is down nothing happens to it: over any run
    of requests in which it does not come back, the table and the
    sequence of either server stay exactly as they were, and every
    answer is a 400 or a 500. *)
Theorem store_down_nothing_stored (rs : list request) (db : Db.t) :
  Db.up db = false -> no_recovery rs = true ->
  (snd (run serve3100 db rs) = db
   /\ Forall refusal (fst (run serve3100 db rs)))
  /\ (snd (run serve3021 db rs) = db
      /\ Forall refusal (fst (run serve3021 db rs))).
Proof.
  intros U N. split.
  - apply (serve_down _ _ down_3100); try assumption.
    intros d Ud. unfold Server3100.get_offboarding, select. rewrite Ud.
    cbn. auto.
  - apply (serve_down _ _ down_3021); try assumption.
    intros d Ud. unfold Server3021.get_offboarding, select. rewrite Ud.
    cbn. auto.
Qed.

Lemma store_down_nothing_stored_witness :
  (snd (run serve3100 (Db.mk false [row_of 1 10 jane] 2)
            [Submit 20 john; ListAll; Submit 30 negative_bonus; StoreDown])
   = Db.mk false [row_of 1 10 jane] 2
   /\ Forall refusal
        (fst (run serve3100 (Db.mk false [row_of 1 10 jane] 2)
                  [Submit 20 john; ListAll; Submit 30 negative_bonus;
                   StoreDown])))
  /\ (snd (run serve3021 (Db.mk false [row_of 1 10 jane] 2)
               [Submit 20 john; ListAll; Submit 30 negative_bonus; StoreDown])
      = Db.mk false [row_of 1 10 jane] 2
      /\ Forall refusal
           (fst (run serve3021 (Db.mk false [row_of 1 10 jane] 2)
                     [Submit 20 john; ListAll; Submit 30 negative_bonus;
                      StoreDown]))).
Proof.
  apply (store_down_nothing_stored
           [Submit 20 john; ListAll; Submit 30 negative_bonus; StoreDown]
           (Db.mk false [row_of 1 10 jane] 2)); reflexivity.
Defined.

(** ** More on start-up *)

(** X13.  [connectWithRetry] for any bound and delay.  With the bound 0
    it makes no attempt and resolves at once.  With the bound n+1 it
    stops at the first attempt that succeeds and resolves with true, or
    makes all n+1 attempts and rejects; it waits the delay after each
    failed attempt except the last of the bound, so it never waits
    before giving up. *)
Theorem connectWithRetry_any_bound (w : world) (n : nat) (delay : Z) :
  connectWithRetry w 0 delay [] = ([], ReturnUndefined)
  /\ exists k : nat,
      (k <= n)%nat
      /\ (forall j, (j < k)%nat -> connect_ok w j = false)
      /\ ((connect_ok w k = true
           /\ connectWithRetry w (S n) delay []
              = (failed_with delay k ++ [Connect true], ReturnTrue))
          \/ (k = n /\ connect_ok w n = false
              /\ connectWithRetry w (S n) delay []
                 = (failed_with delay n ++ [Connect false], Throw))).
Proof.
  split.
  - unfold connectWithRetry. simp retry. reflexivity.
  - unfold connectWithRetry.
    destruct (retry_spec w (S n) delay n 0 ltac:(lia) ltac:(intros j J; lia))
      as [(k & K & F & C & R) | [F R]];
      change (failed_with delay 0) with (@nil event) in R.
    + exists k. split; [lia|]. split; [exact F|]. left. auto.
    + exists n. split; [lia|]. split; [intros j J; apply F; lia|].
      right. split; [reflexivity|]. split; [apply F; lia|].
      replace (S n - 1)%nat with n in R by lia. exact R.
Qed.

Lemma waited_app (a b : trace) : waited (a ++ b) = (waited a + waited b)%Z.
Proof.
  induction a as [|e a IH]; [reflexivity|].
  destruct e; cbn [app waited]; rewrite IH; lia.
Qed.

Lemma waited_failed (delay : Z) (k : nat) :
  waited (failed_with delay k) = (delay * Z.of_nat k)%Z.
Proof.
  induction k as [|k IH]; [cbn; lia|].
  rewrite failed_snoc, waited_app, IH. cbn [waited]. lia.
Qed.

(** X14.  Start-up of the server on port 3100 waits 5000 ms for each
    attempt after the first, and so at most 20000 ms in all, before it
    listens or exits. *)
Theorem startup_waits_at_most_20s (w : world) :
  waited (main w) = (5000 * (Z.of_nat (connects (main w)) - 1))%Z
  /\ (0 <= waited (main w) <= 20000)%Z.
Proof.
  destruct (main_cases w)
    as (k & K & _ & [(_ & _ & R) | [(_ & _ & R) | (_ & _ & R)]]);
    rewrite R, waited_app, connects_app; unfold failed;
    rewrite waited_failed, connects_failed; cbn [waited connects filter
      is_connect List.length]; lia.
Qed.

(** X15.  Backend/server.js listens whatever the store does: the call
    of [app.listen] on port 3021 is the first event of every start-up,
    also when the connection or the table creation fails.  The process
    exits, with code 1, exactly when one of the two fails, and the exit
    is then the last event. *)
Theorem startup_3021_listens_first (w : world) (connect_first : bool) :
  hd_error (Startup3021.main w connect_first) = Some (Listen 3021)
  /\ (In (Exit 1) (Startup3021.main w connect_first)
      <-> connect_ok w 0 = false \/ create_ok w = false)
  /\ (last (Startup3021.main w connect_first) (Listen 3021) = Exit 1
      <-> connect_ok w 0 = false \/ create_ok w = false).
Proof.
  split; [reflexivity|].
  unfold Startup3021.main, Startup3021.then_, Startup3021.on_connect,
    Startup3021.on_create.
  destruct connect_first, (connect_ok w 0), (create_ok w);
    cbn [fst snd app last In]; split; split; intros H;
    first [ reflexivity | discriminate H | intuition congruence ].
Qed.
